(** * MVM: the Makgeolli Volume Meter firmware (mvm.cpp)

    A shallow embedding of [mvm.cpp]: [setup] and [loop], the
    menu/navigation controller, the field editors, the profile store, the
    sonar and the five renderers, together with the properties of the
    specification that concern them and further properties of the code.

    Target.  The sketch is written for an AVR Arduino board (it uses
    [EEPROM.get]/[EEPROM.put] without [begin]/[commit], the analog pins
    [A2]/[A3] and a 128x64 SSD1306 panel).  On avr-gcc
      - [int] is 16 bits and [long] is 32 bits, two's complement;
      - [float] and [double] are both IEEE-754 binary32;
      - objects are stored little-endian.
    The embedding follows that target: integers are [Z] with the C++
    range conditions written out, floating-point values are the
    [spec_float] of the standard library at precision 24 and maximal
    exponent 128, and everything C++ leaves undefined (an array read past
    its end, an integer division by zero, a signed overflow, a
    floating-point value converted to an integer type that cannot hold
    it) is an explicit [Undefined] outcome. *)

From Stdlib Require Import ZArith Lia Bool String.
From Stdlib Require Import Floats.SpecFloat Init.Byte.
From stdpp Require Import list.

Open Scope Z_scope.

(** ** Outcomes of C++ code: a value, or undefined behaviour *)

Inductive ub : Type :=
| OutOfBounds (index size : Z)   (* array subscript outside the array *)
| DivisionByZero                 (* integer [/] or [%] by zero *)
| SignedOverflow                 (* signed integer arithmetic overflow *)
| FloatToInteger.                (* float converted to an integer type that cannot represent it *)

Inductive outcome (A : Type) : Type :=
| Ok (a : A)
| Undefined (why : ub).

Arguments Ok {A} a.
Arguments Undefined {A} why.

Definition bind {A B : Type} (c : outcome A) (k : A -> outcome B) : outcome B :=
  match c with
  | Ok a => k a
  | Undefined why => Undefined why
  end.

Notation "'let*' x ':=' c 'in' k" := (bind c (fun x => k))
  (at level 10, x name, c at level 200, k at level 200,
   format "'[v' 'let*'  x  ':='  c  'in' '/' k ']'").

Definition is_ok {A : Type} (c : outcome A) : bool :=
  match c with Ok _ => true | Undefined _ => false end.

(** ** Integer arithmetic of the target *)

Module C.

Definition INT_MIN : Z := -32768.
Definition INT_MAX : Z := 32767.
Definition LONG_MIN : Z := -2147483648.
Definition LONG_MAX : Z := 2147483647.

Definition in_int (z : Z) : bool := (INT_MIN <=? z) && (z <=? INT_MAX).
Definition in_long (z : Z) : bool := (LONG_MIN <=? z) && (z <=? LONG_MAX).

(** The result of a signed operation whose mathematical value is [z]. *)
Definition int_result (z : Z) : outcome Z :=
  if in_int z then Ok z else Undefined SignedOverflow.
Definition long_result (z : Z) : outcome Z :=
  if in_long z then Ok z else Undefined SignedOverflow.

Definition int_add (a b : Z) : outcome Z := int_result (a + b).

(** [a % b]: the remainder of the division truncated towards zero, so
    its sign is the sign of [a]. *)
Definition int_rem (a b : Z) : outcome Z :=
  if b =? 0 then Undefined DivisionByZero else int_result (Z.rem a b).

Definition long_add (a b : Z) : outcome Z := long_result (a + b).
Definition long_sub (a b : Z) : outcome Z := long_result (a - b).
Definition long_mul (a b : Z) : outcome Z := long_result (a * b).

(** [a / b] truncates towards zero. *)
Definition long_div (a b : Z) : outcome Z :=
  if b =? 0 then Undefined DivisionByZero else long_result (Z.quot a b).

(** Conversion of a [long] to [int]: the value modulo 2^16 (the
    conversion gcc implements). *)
Definition long_to_int (z : Z) : Z :=
  Z.modulo (z + 32768) 65536 - 32768.

End C.

(** ** binary32 floating point *)

Module F32.

Definition prec : Z := 24.
Definition emax : Z := 128.

Definition add : spec_float -> spec_float -> spec_float := SFadd prec emax.
Definition sub : spec_float -> spec_float -> spec_float := SFsub prec emax.
Definition mul : spec_float -> spec_float -> spec_float := SFmul prec emax.
Definition div : spec_float -> spec_float -> spec_float := SFdiv prec emax.

(** [x < y] and [x <= y]; both are false when an operand is NaN. *)
Definition ltb : spec_float -> spec_float -> bool := SFltb.
Definition leb : spec_float -> spec_float -> bool := SFleb.

Definition isnan (x : spec_float) : bool :=
  match x with S754_nan => true | _ => false end.

(** Conversion of an integer value to floating point, rounding to nearest. *)
Definition of_Z (z : Z) : spec_float := binary_normalize prec emax z 0 false.

Definition zero : spec_float := S754_zero false.

(** The integer part of a finite value (truncation towards zero). *)
Definition trunc (x : spec_float) : option Z :=
  match x with
  | S754_zero _ => Some 0
  | S754_finite s m (Zpos p) => Some (cond_Zopp s (Z.shiftl (Zpos m) (Zpos p)))
  | S754_finite s m Z0 => Some (cond_Zopp s (Zpos m))
  | S754_finite s m (Zneg p) => Some (cond_Zopp s (Z.shiftr (Zpos m) (Zpos p)))
  | S754_infinity _ | S754_nan => None
  end.

(** Floating-integral conversions: undefined unless the truncated value
    is representable in the destination type. *)
Definition to_int (x : spec_float) : outcome Z :=
  match trunc x with
  | Some z => if C.in_int z then Ok z else Undefined FloatToInteger
  | None => Undefined FloatToInteger
  end.

Definition to_long (x : spec_float) : outcome Z :=
  match trunc x with
  | Some z => if C.in_long z then Ok z else Undefined FloatToInteger
  | None => Undefined FloatToInteger
  end.

(** The object representation: sign bit, 8 exponent bits, 23 fraction bits. *)
Definition of_bits (w : Z) : spec_float :=
  let s := Z.testbit w 31 in
  let e := Z.modulo (Z.shiftr w 23) 256 in
  let f := Z.modulo w 8388608 in
  if e =? 0 then
    match f with
    | Zpos m => S754_finite s m (-149)
    | _ => S754_zero s
    end
  else if e =? 255 then
    (if f =? 0 then S754_infinity s else S754_nan)
  else
    match f + 8388608 with
    | Zpos m => S754_finite s m (e - 150)
    | _ => S754_nan
    end.

Definition to_bits (x : spec_float) : Z :=
  let sign (s : bool) := if s then 2147483648 else 0 in
  match x with
  | S754_zero s => sign s
  | S754_infinity s => sign s + 2139095040
  | S754_nan => 2143289344
  | S754_finite s m e =>
      if Zpos m <? 8388608
      then sign s + Zpos m
      else sign s + Z.shiftl (e + 150) 23 + (Zpos m - 8388608)
  end.

(** The exact value of a finite float as a fraction [(n, d)], [d > 0]. *)
Definition scaled (x : spec_float) : option (Z * Z) :=
  match x with
  | S754_zero _ => Some (0, 1)
  | S754_finite s m (Zneg p) => Some (cond_Zopp s (Zpos m), Z.pow 2 (Zpos p))
  | S754_finite s m e => Some (cond_Zopp s (Zpos m) * Z.pow 2 e, 1)
  | _ => None
  end.

(** The value rounded to [digits] decimals, half away from zero, as an
    integer count of units of 10^-digits. *)
Definition round_decimals (digits : Z) (x : spec_float) : option Z :=
  match scaled x with
  | Some (n, d) =>
      let q := Z.quot (2 * Z.abs n * Z.pow 10 digits + d) (2 * d) in
      Some (Z.sgn n * q)
  | None => None
  end.

End F32.

(** ** Arrays *)

(** [a[i]] for a C array modelled as a list: reading or writing outside
    the array is undefined. *)
Definition array_get {A : Type} (a : list A) (i : Z) : outcome A :=
  if i <? 0 then Undefined (OutOfBounds i (Z.of_nat (length a)))
  else match a !! Z.to_nat i with
       | Some x => Ok x
       | None => Undefined (OutOfBounds i (Z.of_nat (length a)))
       end.

Definition array_set {A : Type} (a : list A) (i : Z) (x : A) : outcome (list A) :=
  if (0 <=? i) && (i <? Z.of_nat (length a))
  then Ok (<[Z.to_nat i := x]> a)
  else Undefined (OutOfBounds i (Z.of_nat (length a))).

(** ** The data model (mvm.cpp, lines 30-53) *)

Record WaterTankSetting : Type := {
  minHeight : spec_float;
  diameter : spec_float;
  targetCapacity : spec_float
}.

(** [sizeof(WaterTankSetting)]: three 4-byte floats. *)
Definition sizeof_WaterTankSetting : Z := 12.

Inductive screen : Type :=
| MAIN_SCREEN
| MENU_SCREEN
| VIEW_SCREEN
| SETTINGS_SCREEN
| LOAD_SCREEN.

(** ** The non-volatile store *)

Module EEPROM.

(** The contents: a byte at every address (the sketch uses the addresses
    0..61: five profiles of 12 bytes, then the active index). *)
Definition t : Type := Z -> byte.

Definition read (e : t) (a : Z) : Z := Z.of_N (Byte.to_N (e a)).

Definition byte_of_Z (v : Z) : byte :=
  match Byte.of_N (Z.to_N (Z.modulo v 256)) with
  | Some b => b
  | None => x00
  end.

Definition write (e : t) (a v : Z) : t :=
  fun a' => if a' =? a then byte_of_Z v else e a'.

(** [EEPROM.get(a, x)] and [EEPROM.put(a, x)] for [int x]: two bytes,
    low byte first, two's complement. *)
Definition get_int (e : t) (a : Z) : Z :=
  let u := read e a + 256 * read e (a + 1) in
  if u <? 32768 then u else u - 65536.

Definition put_int (e : t) (a v : Z) : t :=
  write (write e a v) (a + 1) (Z.shiftr v 8).

(** The same for [float x]: the four bytes of its binary32 pattern. *)
Definition get_float (e : t) (a : Z) : spec_float :=
  F32.of_bits (read e a + 256 * read e (a + 1)
               + 65536 * read e (a + 2) + 16777216 * read e (a + 3)).

Definition put_float (e : t) (a : Z) (x : spec_float) : t :=
  let w := F32.to_bits x in
  write (write (write (write e a w) (a + 1) (Z.shiftr w 8))
               (a + 2) (Z.shiftr w 16))
        (a + 3) (Z.shiftr w 24).

(** The same for a [WaterTankSetting]: its fields in declaration order. *)
Definition get_setting (e : t) (a : Z) : WaterTankSetting :=
  {| minHeight := get_float e a;
     diameter := get_float e (a + 4);
     targetCapacity := get_float e (a + 8) |}.

Definition put_setting (e : t) (a : Z) (p : WaterTankSetting) : t :=
  put_float (put_float (put_float e a (minHeight p)) (a + 4) (diameter p))
            (a + 8) (targetCapacity p).

End EEPROM.

(** ** The program state: the globals of mvm.cpp and the EEPROM *)

Record state : Type := {
  settings : list WaterTankSetting;   (* WaterTankSetting settings[5] *)
  currentSetting : Z;                 (* int currentSetting *)
  currentScreen : screen;             (* int currentScreen *)
  menuItem : Z;                       (* int menuItem *)
  eeprom : EEPROM.t
}.

(** [int currentSettingAddress = 5 * sizeof(WaterTankSetting)]. *)
Definition currentSettingAddress : Z := 5 * sizeof_WaterTankSetting.

Definition with_settings (v : list WaterTankSetting) (s : state) : state :=
  {| settings := v; currentSetting := currentSetting s;
     currentScreen := currentScreen s; menuItem := menuItem s; eeprom := eeprom s |}.

Definition with_currentSetting (v : Z) (s : state) : state :=
  {| settings := settings s; currentSetting := v;
     currentScreen := currentScreen s; menuItem := menuItem s; eeprom := eeprom s |}.

Definition with_currentScreen (v : screen) (s : state) : state :=
  {| settings := settings s; currentSetting := currentSetting s;
     currentScreen := v; menuItem := menuItem s; eeprom := eeprom s |}.

Definition with_menuItem (v : Z) (s : state) : state :=
  {| settings := settings s; currentSetting := currentSetting s;
     currentScreen := currentScreen s; menuItem := v; eeprom := eeprom s |}.

Definition with_eeprom (v : EEPROM.t) (s : state) : state :=
  {| settings := settings s; currentSetting := currentSetting s;
     currentScreen := currentScreen s; menuItem := menuItem s; eeprom := v |}.

(** The state of the globals before [setup] runs: the initialisers of
    lines 42-53. *)
Definition initial_state (e : EEPROM.t) : state :=
  {| settings := replicate 5 {| minHeight := F32.zero; diameter := F32.zero;
                                targetCapacity := F32.zero |};
     currentSetting := 0;
     currentScreen := MAIN_SCREEN;
     menuItem := 0;
     eeprom := e |}.

(** ** The profile store (lines 563-584) *)

(** [loadSettings]: [for (i = 0; i < 5; i++) EEPROM.get(i * sizeof, settings[i])]. *)
Definition loadSettings (s : state) : state :=
  with_settings
    (foldl (fun a i =>
              <[Z.to_nat i := EEPROM.get_setting (eeprom s) (i * sizeof_WaterTankSetting)]> a)
           (settings s) (seqZ 0 5))
    s.

(** [saveSettings(index)]: writes slot [index] when [0 <= index < 5],
    otherwise does nothing. *)
Definition saveSettings (index : Z) (s : state) : outcome state :=
  if (0 <=? index) && (index <? 5) then
    let* p := array_get (settings s) index in
    Ok (with_eeprom (EEPROM.put_setting (eeprom s) (index * sizeof_WaterTankSetting) p) s)
  else Ok s.

(** ** [setup] (lines 62-87): the part that touches the program state *)

Definition setup (e : EEPROM.t) : state :=
  let s := initial_state e in
  let s := with_currentSetting (EEPROM.get_int (eeprom s) currentSettingAddress) s in
  let s :=
    if (currentSetting s <? 0) || (currentSetting s >=? 5) then
      let s := with_currentSetting 0 s in
      with_eeprom (EEPROM.put_int (eeprom s) currentSettingAddress (currentSetting s)) s
    else s in
  loadSettings s.

(** ** The controller (lines 110-323) *)

(** The five buttons as [handleButtons] samples them at the start of a
    cycle ([true] = pressed). *)
Module Btn.
Record t : Type := {
  up : bool;
  down : bool;
  left : bool;
  right : bool;
  select : bool
}.
End Btn.

(** [executeMenuAction] (lines 234-252). *)
Definition executeMenuAction (s : state) : state :=
  let s :=
    match menuItem s with
    | 0 => with_currentScreen MAIN_SCREEN s
    | 1 => with_currentScreen VIEW_SCREEN s
    | 2 => with_currentScreen SETTINGS_SCREEN s
    | 3 => with_currentScreen LOAD_SCREEN s
    | _ => s
    end in
  with_menuItem (-1) s.

(** [adjustSetting(increase)] (lines 262-297).  [sonar] is the value the
    call of [pingSonar()] in [case 0] returns. *)
Definition adjustSetting (increase : bool) (sonar : spec_float) (s : state) : outcome state :=
  let adjustment := if increase then F32.of_Z 10 else F32.of_Z (-10) in
  match menuItem s with
  | 0 =>
      let* p := array_get (settings s) (currentSetting s) in
      let p := {| minHeight := sonar; diameter := diameter p;
                  targetCapacity := targetCapacity p |} in
      let* a := array_set (settings s) (currentSetting s) p in
      Ok (with_settings a s)
  | 1 =>
      let* p := array_get (settings s) (currentSetting s) in
      let d := diameter p in
      let d := if F32.isnan d then F32.zero else d in
      let d := F32.add d adjustment in
      let d := if F32.ltb d F32.zero then F32.zero else d in
      let p := {| minHeight := minHeight p; diameter := d;
                  targetCapacity := targetCapacity p |} in
      let* a := array_set (settings s) (currentSetting s) p in
      Ok (with_settings a s)
  | 2 =>
      let* p := array_get (settings s) (currentSetting s) in
      let c := targetCapacity p in
      let c := if F32.isnan c then F32.zero else c in
      let c := F32.add c adjustment in
      let c := if F32.ltb c F32.zero then F32.zero else c in
      let p := {| minHeight := minHeight p; diameter := diameter p;
                  targetCapacity := c |} in
      let* a := array_set (settings s) (currentSetting s) p in
      Ok (with_settings a s)
  | _ => Ok s
  end.

(** [adjustCurrentSettingIndex(increase)] (lines 299-323).  The index is
    an [int] and the adjustment a [float]: [isnan] sees the index
    converted to floating point, and [+=] adds in floating point and
    converts the sum back to [int]. *)
Definition adjustCurrentSettingIndex (increase : bool) (s : state) : outcome state :=
  let adjustment := if increase then F32.of_Z 1 else F32.of_Z (-1) in
  match menuItem s with
  | 0 =>
      let c := currentSetting s in
      let c := if F32.isnan (F32.of_Z c) then 0 else c in
      let* c := F32.to_int (F32.add (F32.of_Z c) adjustment) in
      let c := if c <? 0 then 0 else c in
      let c := if c >=? 5 then 4 else c in
      Ok (with_currentSetting c s)
  | _ => Ok s
  end.

(** [menuItem = (menuItem + delta) % count]. *)
Definition cycle_menuItem (delta count : Z) (s : state) : outcome state :=
  let* t := C.int_add (menuItem s) delta in
  let* m := C.int_rem t count in
  Ok (with_menuItem m s).

(** [if (c) { body }]. *)
Definition when (c : bool) (body : state -> outcome state) (s : state) : outcome state :=
  if c then body s else Ok s.

(** [handleButtons] (lines 110-227).  [b] holds the five [digitalRead]
    samples and [sonar] is the value [pingSonar()] returns if this cycle
    calls it (Edit screen, Min Height row).  The local [anyButtonPressed]
    is computed and never read, so it has no counterpart here. *)
Definition handleButtons (b : Btn.t) (sonar : spec_float) (s : state) : outcome state :=
  match currentScreen s with
  | MAIN_SCREEN =>
      when (Btn.select b)
           (fun s => Ok (with_menuItem (-1) (with_currentScreen MENU_SCREEN s))) s
  | MENU_SCREEN =>
      let* s := when (Btn.up b) (cycle_menuItem 3 4) s in
      let* s := when (Btn.down b) (cycle_menuItem 1 4) s in
      when (Btn.select b) (fun s => Ok (executeMenuAction s)) s
  | VIEW_SCREEN =>
      when (Btn.select b) (fun s => Ok (with_currentScreen MENU_SCREEN s)) s
  | SETTINGS_SCREEN =>
      let* s := when (Btn.up b) (cycle_menuItem 3 4) s in
      let* s := when (Btn.down b) (cycle_menuItem 1 4) s in
      if menuItem s =? 0 then
        when (Btn.select b) (adjustSetting true sonar) s
      else if menuItem s <? 3 then
        if Btn.left b then adjustSetting false sonar s
        else when (Btn.right b) (adjustSetting true sonar) s
      else
        when (Btn.select b)
             (fun s =>
                let* s := saveSettings (currentSetting s) s in
                Ok (with_menuItem (-1) (with_currentScreen MENU_SCREEN s))) s
  | LOAD_SCREEN =>
      let* s := when (Btn.up b) (cycle_menuItem 1 2) s in
      let* s := when (Btn.down b) (cycle_menuItem 1 2) s in
      if menuItem s =? 0 then
        if Btn.left b then adjustCurrentSettingIndex false s
        else when (Btn.right b) (adjustCurrentSettingIndex true) s
      else
        when (Btn.select b)
             (fun s =>
                let s := with_eeprom (EEPROM.put_int (eeprom s) currentSettingAddress
                                                     (currentSetting s)) s in
                let s := loadSettings s in
                Ok (with_menuItem (-1) (with_currentScreen MENU_SCREEN s))) s
  end.

(** One input of a control cycle: the buttons and the sonar sample. *)
Definition input : Type := (Btn.t * spec_float)%type.

(** The controller run over a sequence of cycles of [loop] (lines 94-100).
    Of the calls [loop] makes only [handleButtons] writes the program
    state: [updateDisplay] and [pingSonar] read it, so the renderers are
    functions of the state modelled on their own below. *)
Fixpoint run (s : state) (inputs : list input) : outcome state :=
  match inputs with
  | [] => Ok s
  | (b, sonar) :: rest =>
      let* s := handleButtons b sonar s in
      run s rest
  end.

(** The states the firmware can be in at the start of a cycle: booted
    from some EEPROM contents, then driven by some inputs. *)
Definition reachable (s : state) : Prop :=
  exists (e : EEPROM.t) (inputs : list input), run (setup e) inputs = Ok s.

(** ** The sonar (lines 546-556) *)

(** The literal [0.034] as the compiler rounds it to binary32. *)
Definition lit_0_034 : spec_float := S754_finite false 9126806 (-28).

(** [pingSonar()]: [duration] is what [pulseIn] measured, stored in a
    [long]; the distance is [duration * 0.034 / 2]. *)
Definition pingSonar (duration : Z) : spec_float :=
  F32.div (F32.mul (F32.of_Z duration) lit_0_034) (F32.of_Z 2).

(** ** The display *)

Module Display.

Inductive color : Type := WHITE | BLACK.

(** The calls the two renderers make on the [Adafruit_SSD1306] object
    ([setTextColor_bg] is the two-argument [setTextColor]; [print_float]
    is [print(double, int digits)]). *)
Inductive call : Type :=
| clearDisplay
| setTextSize (n : Z)
| setTextColor_bg (c bg : color)
| setCursor (x y : Z)
| print (text : string)
| println (text : string)
| print_float (x : spec_float) (digits : Z)
| drawLine (x0 y0 x1 y1 : Z) (c : color)
| drawRect (x y w h : Z) (c : color)
| fillRect (x y w h : Z) (c : color)
| display.

(** [Adafruit_SSD1306 display(128, 64, &Wire, OLED_RESET)]. *)
Definition width : Z := 128.
Definition height : Z := 64.

Definition is_print_float (c : call) : bool :=
  match c with print_float _ _ => true | _ => false end.

End Display.

Import Display.

(** [#define PI 3.14159265359], rounded to binary32. *)
Definition PI : spec_float := S754_finite false 13176795 (-22).

Module Arduino.

(** [long map(long x, long in_min, long in_max, long out_min, long out_max)]
    of the Arduino core, which the sketch calls and does not define.  Its
    documented body is
    [return (x - in_min) * (out_max - out_min) / (in_max - in_min) + out_min;]. *)
Definition map (x in_min in_max out_min out_max : Z) : outcome Z :=
  let* a := C.long_sub x in_min in
  let* b := C.long_sub out_max out_min in
  let* n := C.long_mul a b in
  let* d := C.long_sub in_max in_min in
  let* q := C.long_div n d in
  C.long_add q out_min.

End Arduino.

(** The volume [updateMainScreen] computes from the active profile and
    the sonar sample (lines 366-367). *)
Definition volume_of (p : WaterTankSetting) (distance : spec_float) : spec_float :=
  let height := F32.sub (minHeight p) distance in
  F32.div (F32.mul (F32.mul PI (diameter p)) height) (F32.of_Z 1000).

(** [updateMainScreen] (lines 363-403).  [distance] is the value its
    call of [pingSonar()] returns; the result is the list of calls made on
    [display].  [map] takes [long] parameters, so the [float] arguments
    [volume] and [targetCapacity] are converted at the call. *)
Definition updateMainScreen (distance : spec_float) (s : state) : outcome (list call) :=
  let* p := array_get (settings s) (currentSetting s) in
  let volume := volume_of p distance in
  if F32.isnan volume then
    Ok [clearDisplay; setTextSize 1; setCursor 0 0; println "please set up tank"]
  else
    let volume := if F32.ltb volume F32.zero then F32.zero else volume in
    let remainingCapacity := F32.sub (targetCapacity p) volume in
    let progressBarWidth := width - 4 in
    let progressBarHeight := 8 in
    let progressBarX := 2 in
    let progressBarY := Z.quot (height - progressBarHeight) 2 + 15 in
    let drawn :=
      [clearDisplay; setTextSize 2; setCursor (Z.quot (width - 6 * 8) 2) 15;
       print_float volume 1; print " L";
       drawRect progressBarX progressBarY progressBarWidth progressBarHeight WHITE] in
    let* x := F32.to_long volume in
    let* in_max := F32.to_long (targetCapacity p) in
    let* progress := Arduino.map x 0 in_max 0 progressBarWidth in
    let progress := C.long_to_int progress in
    Ok (drawn ++ [fillRect progressBarX progressBarY progress progressBarHeight WHITE;
                  display]).

(** [for (int i = lo; i < hi; i++) body], collecting the calls made. *)
Fixpoint for_each (indices : list Z) (body : Z -> outcome (list call)) : outcome (list call) :=
  match indices with
  | [] => Ok []
  | i :: rest =>
      let* c := body i in
      let* cs := for_each rest body in
      Ok (c ++ cs)
  end.

Definition for_loop (lo hi : Z) (body : Z -> outcome (list call)) : outcome (list call) :=
  for_each (seqZ lo (hi - lo)) body.

(** [const char *menuItems[]] of [updateMenuScreen] (line 418). *)
Definition menuItems : list string :=
  ["Main Screen"; "View Settings"; "Edit Settings"; "Load Settings"]%string.

(** [updateMenuScreen] (lines 410-436). *)
Definition updateMenuScreen (s : state) : outcome (list call) :=
  let* rows :=
    for_loop 0 5 (fun i =>
      let highlight :=
        if i =? menuItem s
        then [fillRect 0 (i * 10 + 11) width 10 WHITE; setTextColor_bg BLACK WHITE]
        else [setTextColor_bg WHITE BLACK] in
      let* label := array_get menuItems i in
      Ok (highlight ++ [setCursor 0 (i * 10 + 11); println label])) in
  Ok ([setTextSize 1; setCursor (Z.quot (width - 4 * 6) 2) 0; println "Menu";
       drawLine 0 10 width 10 WHITE] ++ rows ++ [display]).

(** ** The remaining renderers, [updateDisplay] and [loop] *)

Module Draw.

(** The calls these make on [display]: the calls of [Display.call], the
    one-argument [setTextColor] and [println] of an [int]. *)
Inductive t : Type :=
| of_call (c : call)
| setTextColor (c : color)
| println_int (n : Z).

End Draw.

(** [for (int i = lo; i < hi; i++) body] for the renderers below. *)
Fixpoint draw_each (indices : list Z) (body : Z -> outcome (list Draw.t))
    : outcome (list Draw.t) :=
  match indices with
  | [] => Ok []
  | i :: rest =>
      let* c := body i in
      let* cs := draw_each rest body in
      Ok (c ++ cs)
  end.

Definition draw_loop (lo hi : Z) (body : Z -> outcome (list Draw.t))
    : outcome (list Draw.t) :=
  draw_each (seqZ lo (hi - lo)) body.

(** The row prologue shared by the three list screens (lines 480-489,
    518-527): the highlighted row is filled and printed inverted. *)
Definition row_prologue (i : Z) (s : state) : list Draw.t :=
  (if i =? menuItem s
   then [Draw.of_call (fillRect 0 (i * 10 + 11) width 10 WHITE);
         Draw.of_call (setTextColor_bg BLACK WHITE)]
   else [Draw.of_call (setTextColor_bg WHITE BLACK)])
  ++ [Draw.of_call (setCursor 0 (i * 10 + 11))].

(** [updateViewSettingsScreen] (lines 443-460); [static_cast<int>] is the
    floating-integral conversion [F32.to_int]. *)
Definition updateViewSettingsScreen (s : state) : outcome (list Draw.t) :=
  let* p := array_get (settings s) (currentSetting s) in
  let* a := F32.to_int (minHeight p) in
  let* p := array_get (settings s) (currentSetting s) in
  let* b := F32.to_int (diameter p) in
  let* p := array_get (settings s) (currentSetting s) in
  let* c := F32.to_int (targetCapacity p) in
  Ok [Draw.of_call (setTextSize 1);
      Draw.of_call (setCursor (Z.quot (width - 13 * 6) 2) 0);
      Draw.of_call (println "View Settings");
      Draw.of_call (drawLine 0 10 width 10 WHITE);
      Draw.of_call (setCursor 0 14);
      Draw.of_call (print "Min Height: "); Draw.println_int a;
      Draw.of_call (print "Diameter: "); Draw.println_int b;
      Draw.of_call (print "Target Capacity: "); Draw.println_int c].

(** [updateEditSettingsScreen] (lines 467-498). *)
Definition updateEditSettingsScreen (s : state) : outcome (list Draw.t) :=
  let menuItems :=
    ["Min Height: "; "Diameter:"; "Target Capacity:"; "Save Settings"]%string in
  let* p1 := array_get (settings s) (currentSetting s) in
  let* p2 := array_get (settings s) (currentSetting s) in
  let* p3 := array_get (settings s) (currentSetting s) in
  let values := [minHeight p1; diameter p2; targetCapacity p3] in
  let* rows :=
    draw_loop 0 4 (fun i =>
      let* label := array_get menuItems i in
      let* value :=
        if i <? 3 then
          let* x := array_get values i in
          let* n := F32.to_int x in
          Ok [Draw.println_int n]
        else Ok [] in
      Ok (row_prologue i s ++ [Draw.of_call (print label)] ++ value)) in
  Ok ([Draw.of_call (setTextSize 1);
       Draw.of_call (setCursor (Z.quot (width - 13 * 6) 2) 0);
       Draw.of_call (println "Edit Settings");
       Draw.of_call (drawLine 0 10 width 10 WHITE)]
      ++ rows ++ [Draw.of_call display]).

(** [updateLoadSettingsScreen] (lines 505-536); [float values[] =
    {currentSetting}] converts the index to [float]. *)
Definition updateLoadSettingsScreen (s : state) : outcome (list Draw.t) :=
  let menuItems := ["index: "; "Load Settings"]%string in
  let values := [F32.of_Z (currentSetting s)] in
  let* rows :=
    draw_loop 0 2 (fun i =>
      let* label := array_get menuItems i in
      let* value :=
        if i <? 1 then
          let* x := array_get values i in
          let* n := F32.to_int x in
          Ok [Draw.println_int n]
        else Ok [] in
      Ok (row_prologue i s ++ [Draw.of_call (print label)] ++ value)) in
  Ok ([Draw.of_call (setTextSize 1);
       Draw.of_call (setCursor (Z.quot (width - 13 * 6) 2) 0);
       Draw.of_call (println "Load Settings");
       Draw.of_call (drawLine 0 10 width 10 WHITE)]
      ++ rows ++ [Draw.of_call display]).

(** [updateDisplay] (lines 330-356).  [distance] is the sample the Main
    screen takes. *)
Definition updateDisplay (distance : spec_float) (s : state) : outcome (list Draw.t) :=
  let* body :=
    match currentScreen s with
    | MAIN_SCREEN =>
        let* calls := updateMainScreen distance s in
        Ok (List.map Draw.of_call calls)
    | MENU_SCREEN =>
        let* calls := updateMenuScreen s in
        Ok (List.map Draw.of_call calls)
    | VIEW_SCREEN => updateViewSettingsScreen s
    | SETTINGS_SCREEN => updateEditSettingsScreen s
    | LOAD_SCREEN => updateLoadSettingsScreen s
    end in
  Ok ([Draw.of_call clearDisplay; Draw.of_call (setTextSize 1);
       Draw.setTextColor WHITE; Draw.of_call (setCursor 0 0)]
      ++ body ++ [Draw.of_call display]).

(** [loop] (lines 94-100): [handleButtons], then [updateDisplay]; the
    sample of its own [pingSonar()] call is discarded and [delay] leaves no
    trace in the state.  [echo] and [echo'] are the pulse durations the
    sonar measures for [handleButtons] and for [updateDisplay]. *)
Definition loop (b : Btn.t) (echo echo' : Z) (s : state)
    : outcome (state * list Draw.t) :=
  let* s := handleButtons b (pingSonar echo) s in
  let* calls := updateDisplay (pingSonar echo') s in
  Ok (s, calls).

(** * Definitions used to state the properties *)

(** [0 <= x] in floating point; it fails for NaN. *)
Definition nonneg (x : spec_float) : Prop := F32.leb F32.zero x = true.

(** The three statements of [case 1] and [case 2] of [adjustSetting] on
    one field. *)
Definition edited_value (increase : bool) (x : spec_float) : spec_float :=
  let adjustment := if increase then F32.of_Z 10 else F32.of_Z (-10) in
  let x := if F32.isnan x then F32.zero else x in
  let x := F32.add x adjustment in
  if F32.ltb x F32.zero then F32.zero else x.

(** The active profile, [settings[currentSetting]]. *)
Definition active (s : state) : outcome WaterTankSetting :=
  array_get (settings s) (currentSetting s).

(** What [adjustSetting] does to the active profile. *)
Definition adjusted (item : Z) (increase : bool) (sonar : spec_float)
    (p : WaterTankSetting) : WaterTankSetting :=
  match item with
  | 0 => {| minHeight := sonar; diameter := diameter p;
            targetCapacity := targetCapacity p |}
  | 1 => {| minHeight := minHeight p; diameter := edited_value increase (diameter p);
            targetCapacity := targetCapacity p |}
  | 2 => {| minHeight := minHeight p; diameter := diameter p;
            targetCapacity := edited_value increase (targetCapacity p) |}
  | _ => p
  end.





(** The value [menuItem = (menuItem + delta) % count] stores when the
    condition [c] (a pressed arrow) holds. *)
Definition cycled (c : bool) (delta count m : Z) : Z :=
  if c then Z.rem (m + delta) count else m.

(** What holds of the program state at the start of every cycle: the
    profile array has its five slots, the active index is one of them,
    [menuItem] is the sentinel or a row, it is the sentinel on the View
    screen and at most row 1 on the Load screen. *)
Definition inv (s : state) : Prop :=
  length (settings s) = 5%nat
  /\ 0 <= currentSetting s < 5
  /\ -1 <= menuItem s <= 3
  /\ (currentScreen s = VIEW_SCREEN -> menuItem s = -1)
  /\ (currentScreen s = LOAD_SCREEN -> menuItem s <= 1).


(** The calls [updateMainScreen] makes in its NaN branch. *)
Definition tank_prompt : list call :=
  [clearDisplay; setTextSize 1; setCursor 0 0; println "please set up tank"].

(** An erased EEPROM, every byte 0xFF: the stored index reads as -1 and
    every profile field as NaN. *)
Definition erased : EEPROM.t := fun _ => xff.

(** The profile every slot holds after a reload from the erased EEPROM. *)
Definition nan_profile : WaterTankSetting :=
  {| minHeight := S754_nan; diameter := S754_nan; targetCapacity := S754_nan |}.

(** The profile of the specification's example: Min Height 50, Diameter
    20, Target Capacity 10, loaded as the active profile. *)
Definition example_profile : WaterTankSetting :=
  {| minHeight := F32.of_Z 50; diameter := F32.of_Z 20; targetCapacity := F32.of_Z 10 |}.

(** A Main-screen state whose active profile is the example profile. *)
Definition example_state : state :=
  {| settings := replicate 5 example_profile;
     currentSetting := 0;
     currentScreen := MAIN_SCREEN;
     menuItem := 0;
     eeprom := erased |}.

(** The binary32 value the example's volume evaluates to. *)
Definition example_volume : spec_float := S754_finite false 10541436 (-23).

(** The example profile with its Target Capacity decreased to 0. *)
Definition zero_capacity_state : state :=
  {| settings := replicate 5 {| minHeight := F32.of_Z 50; diameter := F32.of_Z 20;
                                targetCapacity := F32.zero |};
     currentSetting := 0;
     currentScreen := MAIN_SCREEN;
     menuItem := 0;
     eeprom := erased |}.

(** A state on screen [scr] with [menuItem = item]: slot 3 active, the
    example profile in every slot, the EEPROM erased. *)
Definition at_screen (scr : screen) (item : Z) : state :=
  {| settings := replicate 5 example_profile;
     currentSetting := 3;
     currentScreen := scr;
     menuItem := item;
     eeprom := erased |}.

(** Button combinations. *)
Definition only_select : Btn.t :=
  {| Btn.up := false; Btn.down := false; Btn.left := false; Btn.right := false;
     Btn.select := true |}.

Definition only_down : Btn.t :=
  {| Btn.up := false; Btn.down := true; Btn.left := false; Btn.right := false;
     Btn.select := false |}.

Definition down_and_select : Btn.t :=
  {| Btn.up := false; Btn.down := true; Btn.left := false; Btn.right := false;
     Btn.select := true |}.

(** All three fields of a profile are valid binary32 values. *)
Definition valid_setting (p : WaterTankSetting) : Prop :=
  valid_binary F32.prec F32.emax (minHeight p) = true
  /\ valid_binary F32.prec F32.emax (diameter p) = true
  /\ valid_binary F32.prec F32.emax (targetCapacity p) = true.

(** Right alone, and the cycles that lead from boot to an edit of the
    Diameter: Select opens the Menu, three Downs highlight "Edit
    Settings", Select opens the Edit screen, two Downs highlight the
    Diameter row, Right adds 10. *)
Definition only_right : Btn.t :=
  {| Btn.up := false; Btn.down := false; Btn.left := false; Btn.right := true;
     Btn.select := false |}.


(** ** Definitions used to state the further properties *)

(** The number of rows a render highlights (one [fillRect] per highlighted
    row), and the integers it prints, in order. *)
Definition highlights (calls : list Draw.t) : nat :=
  length (List.filter
            (fun d => match d with
                      | Draw.of_call (fillRect _ _ _ _ _) => true
                      | _ => false
                      end) calls).

Fixpoint printed_ints (calls : list Draw.t) : list Z :=
  match calls with
  | [] => []
  | Draw.println_int n :: rest => n :: printed_ints rest
  | _ :: rest => printed_ints rest
  end.

(** The active index as the EEPROM holds it. *)
Definition stored_index (e : EEPROM.t) : Z :=
  EEPROM.get_int e currentSettingAddress.

(** The five slots as the EEPROM holds them. *)
Definition stored_settings (e : EEPROM.t) : list WaterTankSetting :=
  List.map (fun i => EEPROM.get_setting e (i * sizeof_WaterTankSetting)) [0; 1; 2; 3; 4].

(** What one cycle of the controller writes, from [s] to [s'] with the
    buttons [b] and the sonar sample [sonar]: nothing but the screen and
    [menuItem] (the screen changes only on Select, to or from the Menu);
    one field of the active profile (Edit screen); the active
    slot of the EEPROM (Save Settings); the active index (Load screen,
    Left or Right); or the stored index and all five profiles (Load
    Settings). *)
Inductive effect (b : Btn.t) (sonar : spec_float) (s s' : state) : Prop :=
| effect_navigate :
    settings s' = settings s ->
    currentSetting s' = currentSetting s ->
    eeprom s' = eeprom s ->
    (currentScreen s = SETTINGS_SCREEN -> currentScreen s' = SETTINGS_SCREEN) ->
    (currentScreen s = LOAD_SCREEN -> currentScreen s' = LOAD_SCREEN) ->
    (currentScreen s' <> currentScreen s ->
     Btn.select b = true
     /\ (currentScreen s = MENU_SCREEN \/ currentScreen s' = MENU_SCREEN)) ->
    effect b sonar s s'
| effect_edit (p : WaterTankSetting) :
    currentScreen s = SETTINGS_SCREEN ->
    currentScreen s' = SETTINGS_SCREEN ->
    Btn.select b || Btn.left b || Btn.right b = true ->
    active s = Ok p ->
    settings s'
    = <[Z.to_nat (currentSetting s)
        := adjusted (menuItem s') (negb (Btn.left b)) sonar p]> (settings s) ->
    currentSetting s' = currentSetting s ->
    eeprom s' = eeprom s ->
    effect b sonar s s'
| effect_save (p : WaterTankSetting) :
    currentScreen s = SETTINGS_SCREEN ->
    currentScreen s' = MENU_SCREEN ->
    Btn.select b = true ->
    active s = Ok p ->
    settings s' = settings s ->
    currentSetting s' = currentSetting s ->
    eeprom s' = EEPROM.put_setting (eeprom s)
                  (currentSetting s * sizeof_WaterTankSetting) p ->
    effect b sonar s s'
| effect_index :
    currentScreen s = LOAD_SCREEN ->
    currentScreen s' = LOAD_SCREEN ->
    Btn.left b || Btn.right b = true ->
    settings s' = settings s ->
    eeprom s' = eeprom s ->
    currentSetting s'
    = Z.max 0 (Z.min 4 (currentSetting s + (if Btn.left b then -1 else 1))) ->
    effect b sonar s s'
| effect_load :
    currentScreen s = LOAD_SCREEN ->
    currentScreen s' = MENU_SCREEN ->
    Btn.select b = true ->
    currentSetting s' = currentSetting s ->
    eeprom s' = EEPROM.put_int (eeprom s) currentSettingAddress (currentSetting s) ->
    settings s' = stored_settings (eeprom s') ->
    effect b sonar s s'.

(** More button combinations. *)
Definition only_up : Btn.t :=
  {| Btn.up := true; Btn.down := false; Btn.left := false; Btn.right := false;
     Btn.select := false |}.

Definition up_and_down : Btn.t :=
  {| Btn.up := true; Btn.down := true; Btn.left := false; Btn.right := false;
     Btn.select := false |}.

Definition only_left : Btn.t :=
  {| Btn.up := false; Btn.down := false; Btn.left := true; Btn.right := false;
     Btn.select := false |}.

Definition up_down_select : Btn.t :=
  {| Btn.up := true; Btn.down := true; Btn.left := false; Btn.right := false;
     Btn.select := true |}.

(** The cycles that lead from boot to the Edit screen: Select opens the
    Menu, three Downs highlight "Edit Settings", Select opens the Edit
    screen; and to the Load screen: four Downs highlight "Load Settings". *)
Definition open_edit_screen : list input :=
  [(only_select, F32.zero); (only_down, F32.zero); (only_down, F32.zero);
   (only_down, F32.zero); (only_select, F32.zero)].

Definition open_load_screen : list input :=
  [(only_select, F32.zero); (only_down, F32.zero); (only_down, F32.zero);
   (only_down, F32.zero); (only_down, F32.zero); (only_select, F32.zero)].

(** The state these cycles lead to from an erased EEPROM, on screen [scr]. *)
Definition fresh_at (scr : screen) : state :=
  {| settings := replicate 5 nan_profile;
     currentSetting := 0;
     currentScreen := scr;
     menuItem := -1;
     eeprom := EEPROM.put_int erased currentSettingAddress 0 |}.

(** * Properties *)

(** ** Sanity checks of the floating-point encoding *)

Example of_Z_20 : F32.of_Z 20 = S754_finite false 10485760 (-19).
Proof. reflexivity. Qed.

Example bits_of_one : F32.to_bits (F32.of_Z 1) = 1065353216 /\ F32.of_bits 1065353216 = F32.of_Z 1.
Proof. split; reflexivity. Qed.

Example bits_erased_cell : F32.of_bits 4294967295 = S754_nan.
Proof. reflexivity. Qed.

(** ** Floating point: operations that cannot produce NaN *)

Section NotNan.

Variables prec emax : Z.

Lemma iter_pos_preserves {A : Type} (P : A -> Prop) (f : A -> A) :
  (forall x, P x -> P (f x)) ->
  forall (p : positive) (x : A), P x -> P (SpecFloat.iter_pos f p x).
Proof.
  intros Hf p; induction p as [p IH | p IH | ]; intros x Hx; simpl.
  - apply IH, IH, Hf, Hx.
  - apply IH, IH, Hx.
  - apply Hf, Hx.
Qed.

Lemma shr_1_nonneg (mrs : shr_record) :
  0 <= shr_m mrs -> 0 <= shr_m (shr_1 mrs).
Proof.
  destruct mrs as [m r t]; simpl.
  destruct m as [ | [q | q | ] | q ]; simpl; lia.
Qed.

Lemma shr_nonneg (mrs : shr_record) (e n : Z) :
  0 <= shr_m mrs -> 0 <= shr_m (fst (shr mrs e n)).
Proof.
  intros H; destruct n as [ | p | p ]; simpl; trivial.
  apply (iter_pos_preserves (fun x => 0 <= shr_m x)); trivial.
  exact shr_1_nonneg.
Qed.

Lemma shr_fexp_nonneg (m e : Z) (l : location) :
  0 <= m -> 0 <= shr_m (fst (shr_fexp prec emax m e l)).
Proof.
  intros H; unfold shr_fexp; apply shr_nonneg.
  destruct l as [ | [ | | ] ]; simpl; exact H.
Qed.

Lemma round_nearest_even_nonneg (m : Z) (l : location) :
  0 <= m -> 0 <= round_nearest_even m l.
Proof.
  intros H; destruct l as [ | [ | | ] ]; simpl; try lia.
  destruct (Z.even m); lia.
Qed.

Lemma binary_round_aux_not_nan (sx : bool) (m e : Z) (l : location) :
  0 <= m -> binary_round_aux prec emax sx m e l <> S754_nan.
Proof.
  intros H; unfold binary_round_aux.
  pose proof (shr_fexp_nonneg m e l H) as H1.
  destruct (shr_fexp prec emax m e l) as [mrs1 e1]; simpl in H1.
  pose proof (shr_fexp_nonneg _ e1 loc_Exact
                (round_nearest_even_nonneg _ (loc_of_shr_record mrs1) H1)) as H2.
  destruct (shr_fexp prec emax _ e1 loc_Exact) as [mrs2 e2]; simpl in H2.
  destruct (shr_m mrs2) as [ | q | q ]; try discriminate; try lia.
  destruct (e2 <=? emax - prec); discriminate.
Qed.

Lemma binary_round_not_nan (sx : bool) (m : positive) (e : Z) :
  binary_round prec emax sx m e <> S754_nan.
Proof.
  unfold binary_round.
  destruct (shl_align m e _) as [mz ez].
  apply binary_round_aux_not_nan; lia.
Qed.

Lemma binary_normalize_not_nan (m e : Z) (szero : bool) :
  binary_normalize prec emax m e szero <> S754_nan.
Proof.
  destruct m; simpl; try discriminate; apply binary_round_not_nan.
Qed.


(** Neither does multiplying it by, or dividing it by, a finite nonzero
    value. *)
Lemma SFmul_finite_not_nan (x : spec_float) (s : bool) (m : positive) (e : Z) :
  x <> S754_nan -> SFmul prec emax x (S754_finite s m e) <> S754_nan.
Proof.
  intros Hx; destruct x as [sx | sx | | sx mx ex]; simpl;
    try discriminate; try congruence.
  apply binary_round_aux_not_nan; lia.
Qed.

Lemma SFdiv_core_binary_nonneg (m1 : positive) (e1 : Z) (m2 : positive) (e2 : Z) :
  0 <= fst (fst (SFdiv_core_binary prec emax (Zpos m1) e1 (Zpos m2) e2)).
Proof.
  unfold SFdiv_core_binary.
  match goal with |- context [Z.div_eucl ?a ?b] =>
    assert (Ha : 0 <= a); [ | pose proof (Z.div_pos a b Ha ltac:(lia)) as Hq;
                              unfold Z.div in Hq; destruct (Z.div_eucl a b); exact Hq]
  end.
  destruct (e1 - e2 - _) as [ | p | p ]; try lia.
  apply Z.shiftl_nonneg; lia.
Qed.

Lemma SFdiv_finite_not_nan (x : spec_float) (s : bool) (m : positive) (e : Z) :
  x <> S754_nan -> SFdiv prec emax x (S754_finite s m e) <> S754_nan.
Proof.
  intros Hx; destruct x as [sx | sx | | sx mx ex]; simpl;
    try discriminate; try congruence.
  pose proof (SFdiv_core_binary_nonneg mx ex m e) as H.
  destruct (SFdiv_core_binary prec emax (Zpos mx) ex (Zpos m) e) as [[mz ez] lz].
  apply binary_round_aux_not_nan; exact H.
Qed.

End NotNan.

Lemma isnan_false (x : spec_float) : F32.isnan x = false <-> x <> S754_nan.
Proof. destruct x; simpl; split; congruence. Qed.

Lemma of_Z_not_nan (z : Z) : F32.isnan (F32.of_Z z) = false.
Proof. apply isnan_false, binary_normalize_not_nan. Qed.

(** [pingSonar] returns a number for every pulse duration: a timeout of
    [pulseIn] (duration 0) gives the distance 0, never NaN. *)
Lemma pingSonar_not_nan (duration : Z) : F32.isnan (pingSonar duration) = false.
Proof.
  apply isnan_false; unfold pingSonar, F32.div, F32.mul.
  change (F32.of_Z 2) with (S754_finite false 8388608 (-22)).
  apply SFdiv_finite_not_nan; unfold lit_0_034.
  apply SFmul_finite_not_nan, binary_normalize_not_nan.
Qed.

Lemma pingSonar_timeout : pingSonar 0 = F32.zero.
Proof. reflexivity. Qed.


Lemma nonneg_not_nan (x : spec_float) : nonneg x -> F32.isnan x = false.
Proof. destruct x; simpl; trivial; discriminate. Qed.


(** ** Arrays *)

Lemma array_get_Ok {A : Type} (a : list A) (i : Z) (x : A) :
  array_get a i = Ok x <-> 0 <= i /\ a !! Z.to_nat i = Some x.
Proof.
  unfold array_get; destruct (Z.ltb_spec i 0) as [Hi | Hi].
  - split; [discriminate | lia].
  - destruct (a !! Z.to_nat i) as [y | ]; split.
    + intros [= ->]; auto.
    + intros [_ [= ->]]; reflexivity.
    + discriminate.
    + intros [_ [=]].
Qed.

Lemma array_get_in_range {A : Type} (a : list A) (i : Z) :
  0 <= i < Z.of_nat (length a) -> exists x, array_get a i = Ok x.
Proof.
  intros Hi; destruct (lookup_lt_is_Some_2 a (Z.to_nat i)) as [x Hx]; [lia | ].
  exists x; apply array_get_Ok; split; [lia | exact Hx].
Qed.

Lemma array_set_after_get {A : Type} (a : list A) (i : Z) (x y : A) :
  array_get a i = Ok x ->
  array_set a i y = Ok (<[Z.to_nat i := y]> a)
  /\ array_get (<[Z.to_nat i := y]> a) i = Ok y.
Proof.
  intros H; apply array_get_Ok in H as [Hi Hx].
  pose proof (lookup_lt_Some _ _ _ Hx) as Hlt.
  split.
  - unfold array_set.
    destruct (Z.leb_spec 0 i); [ | lia].
    destruct (Z.ltb_spec i (Z.of_nat (length a))); [reflexivity | lia].
  - apply array_get_Ok; split; [exact Hi | ].
    apply list_lookup_insert_eq; exact Hlt.
Qed.

(** ** The field editors *)

Lemma adjustSetting_active (increase : bool) (sonar : spec_float) (s : state)
    (p : WaterTankSetting) :
  active s = Ok p ->
  exists s',
    adjustSetting increase sonar s = Ok s'
    /\ active s' = Ok (adjusted (menuItem s) increase sonar p)
    /\ currentSetting s' = currentSetting s
    /\ currentScreen s' = currentScreen s
    /\ menuItem s' = menuItem s
    /\ eeprom s' = eeprom s
    /\ length (settings s') = length (settings s).
Proof.
  intros Hp; unfold active in Hp.
  assert (Hset : forall q,
             array_set (settings s) (currentSetting s) q
             = Ok (<[Z.to_nat (currentSetting s) := q]> (settings s))
             /\ array_get (<[Z.to_nat (currentSetting s) := q]> (settings s))
                  (currentSetting s) = Ok q).
  { intros q; eapply array_set_after_get; exact Hp. }
  assert (Hsame : exists s', Ok s = Ok s' /\ active s' = Ok p
             /\ currentSetting s' = currentSetting s
             /\ currentScreen s' = currentScreen s /\ menuItem s' = menuItem s
             /\ eeprom s' = eeprom s
             /\ length (settings s') = length (settings s)).
  { exists s; unfold active; auto 10. }
  unfold adjustSetting, adjusted.
  destruct (menuItem s) as [ | [ [ | | ] | [ | | ] | ] | ] eqn:Hm; try exact Hsame;
    rewrite Hp; cbn [bind];
    match goal with
    | |- context [array_set _ _ ?q] =>
        destruct (Hset q) as [-> Hget]; cbn [bind];
        eexists; split; [reflexivity | ];
        unfold active; cbn [settings currentSetting currentScreen menuItem eeprom with_settings];
        rewrite length_insert; auto 10
    end.
Qed.




(** ** The EEPROM *)

Lemma read_byte_of_Z (v : Z) :
  Z.of_N (Byte.to_N (EEPROM.byte_of_Z v)) = Z.modulo v 256.
Proof.
  unfold EEPROM.byte_of_Z.
  pose proof (Z.mod_pos_bound v 256 ltac:(lia)) as Hb.
  destruct (Byte.of_N (Z.to_N (Z.modulo v 256))) as [b | ] eqn:E.
  - apply Byte.to_of_N in E; rewrite E; lia.
  - apply Byte.of_N_None_iff in E; lia.
Qed.

Lemma read_write_eq (e : EEPROM.t) (a v : Z) :
  EEPROM.read (EEPROM.write e a v) a = Z.modulo v 256.
Proof.
  unfold EEPROM.read, EEPROM.write; rewrite Z.eqb_refl; apply read_byte_of_Z.
Qed.

Lemma read_write_ne (e : EEPROM.t) (a a' v : Z) :
  a' <> a -> EEPROM.read (EEPROM.write e a v) a' = EEPROM.read e a'.
Proof.
  intros H; unfold EEPROM.read, EEPROM.write.
  destruct (Z.eqb_spec a' a); [contradiction | reflexivity].
Qed.

Lemma read_range (e : EEPROM.t) (a : Z) : 0 <= EEPROM.read e a <= 255.
Proof.
  unfold EEPROM.read; pose proof (Byte.to_N_bounded (e a)); lia.
Qed.

(** An [int] written with [EEPROM.put] is read back by [EEPROM.get]. *)
Lemma get_put_int (e : EEPROM.t) (a v : Z) :
  C.INT_MIN <= v <= C.INT_MAX ->
  EEPROM.get_int (EEPROM.put_int e a v) a = v.
Proof.
  unfold C.INT_MIN, C.INT_MAX; intros Hv.
  unfold EEPROM.get_int, EEPROM.put_int.
  rewrite read_write_eq, read_write_ne, read_write_eq by lia.
  rewrite Z.shiftr_div_pow2 by lia.
  change (2 ^ 8) with 256.
  rewrite <- (Z.rem_mul_r v 256 256) by lia.
  change (256 * 256) with 65536.
  destruct (Z.ltb_spec (Z.modulo v 65536) 32768) as [H | H].
  - destruct (Z.le_gt_cases 0 v) as [H0 | H0].
    + apply Z.mod_small; lia.
    + rewrite <- (Z.mod_add v 1 65536) in H by lia.
      rewrite Z.mod_small in H; lia.
  - destruct (Z.le_gt_cases 0 v) as [H0 | H0].
    + rewrite Z.mod_small in H; lia.
    + rewrite <- (Z.mod_add v 1 65536) by lia.
      rewrite Z.mod_small; lia.
Qed.

(** What [EEPROM.get] reads at type [int] is an [int]. *)
Lemma get_int_range (e : EEPROM.t) (a : Z) :
  C.INT_MIN <= EEPROM.get_int e a <= C.INT_MAX.
Proof.
  unfold EEPROM.get_int, C.INT_MIN, C.INT_MAX.
  pose proof (read_range e a); pose proof (read_range e (a + 1)).
  destruct (Z.ltb_spec (EEPROM.read e a + 256 * EEPROM.read e (a + 1)) 32768); lia.
Qed.

(** ** Persistence of floating-point values *)

Lemma digits2_pos_bounds (m : positive) :
  2 ^ (Zpos (digits2_pos m) - 1) <= Zpos m < 2 ^ Zpos (digits2_pos m).
Proof.
  induction m as [p IH | p IH | ]; cbn [digits2_pos].
  - rewrite Pos2Z.inj_succ.
    replace (Z.succ (Zpos (digits2_pos p)) - 1) with (Z.succ (Zpos (digits2_pos p) - 1)) by lia.
    rewrite !Z.pow_succ_r by lia; lia.
  - rewrite Pos2Z.inj_succ.
    replace (Z.succ (Zpos (digits2_pos p)) - 1) with (Z.succ (Zpos (digits2_pos p) - 1)) by lia.
    rewrite !Z.pow_succ_r by lia; lia.
  - simpl; lia.
Qed.

(** A valid binary32 mantissa and exponent: subnormal, or normal. *)
Lemma bounded_binary32 (m : positive) (e : Z) :
  bounded F32.prec F32.emax m e = true ->
  (Zpos m < 8388608 /\ e = -149)
  \/ (8388608 <= Zpos m < 16777216 /\ -149 <= e <= 104).
Proof.
  unfold bounded, canonical_mantissa, fexp, emin, F32.prec, F32.emax.
  intros H; apply andb_prop in H as [H1 H2].
  apply Z.eqb_eq in H1; apply Z.leb_le in H2.
  pose proof (digits2_pos_bounds m) as [Hlo Hhi].
  set (d := Zpos (digits2_pos m)) in *.
  assert (Hd : 0 < d) by (subst d; lia).
  destruct (Z.le_gt_cases d 23) as [Hs | Hn].
  - left; split; [ | lia].
    apply Z.lt_le_trans with (2 ^ d); [exact Hhi | ].
    change 8388608 with (2 ^ 23); apply Z.pow_le_mono_r; lia.
  - right.
    assert (d = 24) by lia.
    replace d with 24 in * by lia.
    change (2 ^ (24 - 1)) with 8388608 in Hlo; change (2 ^ 24) with 16777216 in Hhi.
    lia.
Qed.

Lemma to_bits_range (x : spec_float) :
  valid_binary F32.prec F32.emax x = true -> 0 <= F32.to_bits x < 4294967296.
Proof.
  destruct x as [s | s | | s m e]; cbn [valid_binary F32.to_bits]; intros H.
  - destruct s; lia.
  - destruct s; lia.
  - lia.
  - destruct (bounded_binary32 m e H) as [[Hm He] | [Hm He]].
    + destruct (Z.ltb_spec (Zpos m) 8388608); [ | lia]; destruct s; lia.
    + destruct (Z.ltb_spec (Zpos m) 8388608); [lia | ].
      rewrite Z.shiftl_mul_pow2 by lia; change (2 ^ 23) with 8388608.
      destruct s; lia.
Qed.

(** Decoding the bit pattern of a valid binary32 value gives the value back. *)
Lemma of_bits_to_bits (x : spec_float) :
  valid_binary F32.prec F32.emax x = true -> F32.of_bits (F32.to_bits x) = x.
Proof.
  destruct x as [s | s | | s m e]; cbn [valid_binary]; intros H;
    try (destruct s; reflexivity); try reflexivity.
  destruct (bounded_binary32 m e H) as [[Hm He] | [Hm He]];
    unfold F32.to_bits, F32.of_bits.
  - destruct (Z.ltb_spec (Zpos m) 8388608); [ | lia].
    set (w := (if s then 2147483648 else 0) + Zpos m).
    assert (Hs : Z.testbit w 31 = s).
    { destruct s; [apply Z.testbit_true | apply Z.testbit_false]; try lia;
        subst w; change (2 ^ 31) with 2147483648; Z.div_mod_to_equations; lia. }
    assert (He' : Z.modulo (Z.shiftr w 23) 256 = 0).
    { rewrite Z.shiftr_div_pow2 by lia; change (2 ^ 23) with 8388608.
      subst w; destruct s; Z.div_mod_to_equations; lia. }
    assert (Hf : Z.modulo w 8388608 = Zpos m).
    { subst w; destruct s; Z.div_mod_to_equations; lia. }
    rewrite Hs, He', Hf, He; reflexivity.
  - destruct (Z.ltb_spec (Zpos m) 8388608); [lia | ].
    rewrite Z.shiftl_mul_pow2 by lia; change (2 ^ 23) with 8388608.
    set (w := (if s then 2147483648 else 0) + (e + 150) * 8388608 + (Zpos m - 8388608)).
    assert (Hs : Z.testbit w 31 = s).
    { destruct s; [apply Z.testbit_true | apply Z.testbit_false]; try lia;
        subst w; change (2 ^ 31) with 2147483648; Z.div_mod_to_equations; lia. }
    assert (He' : Z.modulo (Z.shiftr w 23) 256 = e + 150).
    { rewrite Z.shiftr_div_pow2 by lia; change (2 ^ 23) with 8388608.
      subst w; destruct s; Z.div_mod_to_equations; lia. }
    assert (Hf : Z.modulo w 8388608 = Zpos m - 8388608).
    { subst w; destruct s; Z.div_mod_to_equations; lia. }
    rewrite Hs, He', Hf.
    destruct (Z.eqb_spec (e + 150) 0); [lia | ].
    destruct (Z.eqb_spec (e + 150) 255); [lia | ].
    replace (Zpos m - 8388608 + 8388608) with (Zpos m) by lia.
    replace (e + 150 - 150) with e by lia; reflexivity.
Qed.

Lemma read_put_float_outside (e : EEPROM.t) (a a' : Z) (x : spec_float) :
  a' < a \/ a + 3 < a' ->
  EEPROM.read (EEPROM.put_float e a x) a' = EEPROM.read e a'.
Proof.
  intros H; unfold EEPROM.put_float; rewrite !read_write_ne by lia; reflexivity.
Qed.

Lemma get_float_put_float_outside (e : EEPROM.t) (a a' : Z) (x : spec_float) :
  a' + 3 < a \/ a + 3 < a' ->
  EEPROM.get_float (EEPROM.put_float e a x) a' = EEPROM.get_float e a'.
Proof.
  intros H; unfold EEPROM.get_float.
  rewrite !read_put_float_outside by lia; reflexivity.
Qed.

(** A valid binary32 value written with [EEPROM.put] is read back by
    [EEPROM.get]. *)
Lemma get_put_float (e : EEPROM.t) (a : Z) (x : spec_float) :
  valid_binary F32.prec F32.emax x = true ->
  EEPROM.get_float (EEPROM.put_float e a x) a = x.
Proof.
  intros Hx; pose proof (to_bits_range x Hx) as Hw.
  rewrite <- (of_bits_to_bits x Hx) at 2.
  unfold EEPROM.get_float, EEPROM.put_float.
  set (w := F32.to_bits x) in *.
  rewrite (read_write_ne _ (a + 3) a), (read_write_ne _ (a + 2) a),
    (read_write_ne _ (a + 1) a), read_write_eq by lia.
  rewrite (read_write_ne _ (a + 3) (a + 1)), (read_write_ne _ (a + 2) (a + 1)),
    read_write_eq by lia.
  rewrite (read_write_ne _ (a + 3) (a + 2)), read_write_eq by lia.
  rewrite read_write_eq.
  rewrite !Z.shiftr_div_pow2 by lia.
  change (2 ^ 8) with 256; change (2 ^ 16) with 65536; change (2 ^ 24) with 16777216.
  f_equal; Z.div_mod_to_equations; lia.
Qed.

Lemma get_put_setting (e : EEPROM.t) (a : Z) (p : WaterTankSetting) :
  valid_setting p -> EEPROM.get_setting (EEPROM.put_setting e a p) a = p.
Proof.
  intros (Hm & Hd & Hc); unfold EEPROM.get_setting, EEPROM.put_setting.
  rewrite (get_float_put_float_outside _ (a + 8) a),
    (get_float_put_float_outside _ (a + 4) a), get_put_float by (trivial; lia).
  rewrite (get_float_put_float_outside _ (a + 8) (a + 4)), get_put_float by (trivial; lia).
  rewrite get_put_float by trivial.
  destruct p; reflexivity.
Qed.

Lemma get_setting_put_setting_other (e : EEPROM.t) (a a' : Z) (p : WaterTankSetting) :
  a' + 12 <= a \/ a + 12 <= a' ->
  EEPROM.get_setting (EEPROM.put_setting e a p) a' = EEPROM.get_setting e a'.
Proof.
  intros H; unfold EEPROM.get_setting, EEPROM.put_setting.
  rewrite !get_float_put_float_outside by lia; reflexivity.
Qed.

(** ** The index editor *)

(** [currentSetting += adjustment] adds in floating point and converts
    the sum back to [int]; on the indices of the profile array the result
    is the integer sum. *)
Lemma index_sum_exact (increase : bool) (c : Z) :
  0 <= c < 5 ->
  F32.to_int (F32.add (F32.of_Z c) (if increase then F32.of_Z 1 else F32.of_Z (-1)))
  = Ok (c + (if increase then 1 else -1)).
Proof.
  intros Hc.
  assert (H : c = 0 \/ c = 1 \/ c = 2 \/ c = 3 \/ c = 4) by lia.
  destruct increase, H as [-> | [-> | [-> | [-> | ->]]]]; reflexivity.
Qed.

(** Whatever the index was, if the conversion back to [int] is defined
    the two clamps leave an index of the profile array. *)
Lemma adjustCurrentSettingIndex_clamps (increase : bool) (s s' : state) :
  adjustCurrentSettingIndex increase s = Ok s' ->
  menuItem s = 0 ->
  0 <= currentSetting s' <= 4.
Proof.
  unfold adjustCurrentSettingIndex; intros H Hm; rewrite Hm in H.
  destruct (F32.to_int _) as [c | ] in H; [ | discriminate].
  cbn [bind] in H; injection H as <-; cbn [currentSetting with_currentSetting].
  destruct (Z.ltb_spec c 0); [simpl; lia | ].
  destruct (Z.geb_spec c 5); lia.
Qed.

Lemma adjustCurrentSettingIndex_in_range (increase : bool) (s : state) :
  0 <= currentSetting s < 5 ->
  menuItem s = 0 ->
  adjustCurrentSettingIndex increase s
  = Ok (with_currentSetting
          (Z.max 0 (Z.min 4 (currentSetting s + (if increase then 1 else -1)))) s).
Proof.
  intros Hc Hm; unfold adjustCurrentSettingIndex; rewrite Hm, of_Z_not_nan.
  rewrite index_sum_exact by exact Hc; cbn [bind].
  do 2 f_equal.
  set (c := currentSetting s + (if increase then 1 else -1)).
  destruct (Z.ltb_spec c 0); [change (0 >=? 5) with false; cbv iota; lia | ].
  destruct (Z.geb_spec c 5); lia.
Qed.

(** ** Menu-item cycling *)

Lemma cycle_menuItem_from_sentinel (delta count : Z) (s : state) :
  1 <= delta -> 0 < count <= C.INT_MAX ->
  -1 <= menuItem s <= C.INT_MAX - delta ->
  cycle_menuItem delta count s
  = Ok (with_menuItem (Z.rem (menuItem s + delta) count) s)
  /\ 0 <= Z.rem (menuItem s + delta) count < count.
Proof.
  unfold C.INT_MAX; intros Hd Hn Hm.
  pose proof (Z.rem_bound_pos (menuItem s + delta) count ltac:(lia) ltac:(lia)) as Hr.
  split; [ | exact Hr].
  unfold cycle_menuItem, C.int_add, C.int_rem, C.int_result, C.in_int,
    C.INT_MIN, C.INT_MAX.
  destruct (Z.leb_spec (-32768) (menuItem s + delta)); [ | lia].
  destruct (Z.leb_spec (menuItem s + delta) 32767); [ | lia].
  cbn [andb bind].
  destruct (Z.eqb_spec count 0); [lia | ].
  destruct (Z.leb_spec (-32768) (Z.rem (menuItem s + delta) count)); [ | lia].
  destruct (Z.leb_spec (Z.rem (menuItem s + delta) count) 32767); [ | lia].
  reflexivity.
Qed.

Lemma with_menuItem_same (s : state) : with_menuItem (menuItem s) s = s.
Proof. destruct s; reflexivity. Qed.

Lemma when_cycle (c : bool) (delta count : Z) (s : state) :
  1 <= delta <= 3 -> 0 < count <= 4 -> -1 <= menuItem s <= 3 ->
  when c (cycle_menuItem delta count) s
  = Ok (with_menuItem (cycled c delta count (menuItem s)) s)
  /\ -1 <= cycled c delta count (menuItem s) <= 3
  /\ (c = true -> 0 <= cycled c delta count (menuItem s) < count).
Proof.
  intros Hd Hn Hm; unfold when, cycled; destruct c.
  - destruct (cycle_menuItem_from_sentinel delta count s) as [-> Hr];
      unfold C.INT_MAX; try lia.
    repeat split; try lia.
  - rewrite with_menuItem_same; repeat split; try lia; discriminate.
Qed.

(** ** The invariant of the controller *)

Lemma loadSettings_fields (s : state) :
  length (settings (loadSettings s)) = length (settings s)
  /\ currentSetting (loadSettings s) = currentSetting s
  /\ currentScreen (loadSettings s) = currentScreen s
  /\ menuItem (loadSettings s) = menuItem s
  /\ eeprom (loadSettings s) = eeprom s.
Proof.
  repeat split.
  unfold loadSettings; cbn [settings with_settings].
  change (seqZ 0 5) with [0; 1; 2; 3; 4]; cbn [foldl].
  rewrite !length_insert; reflexivity.
Qed.

(** After [loadSettings] every slot holds what the EEPROM holds for it. *)
Lemma loadSettings_slots (s : state) (i : Z) :
  length (settings s) = 5%nat ->
  0 <= i < 5 ->
  array_get (settings (loadSettings s)) i
  = Ok (EEPROM.get_setting (eeprom s) (i * sizeof_WaterTankSetting)).
Proof.
  intros Hlen Hi.
  destruct s as [a c scr m e]; cbn [settings eeprom] in *.
  destruct a as [ | p0 [ | p1 [ | p2 [ | p3 [ | p4 [ | p5 a]]]]]]; try discriminate.
  assert (H : i = 0 \/ i = 1 \/ i = 2 \/ i = 3 \/ i = 4) by lia.
  destruct H as [-> | [-> | [-> | [-> | ->]]]]; reflexivity.
Qed.

Lemma setup_inv (e : EEPROM.t) : inv (setup e).
Proof.
  unfold setup, inv; cbv zeta.
  match goal with |- context [loadSettings ?x] => set (s1 := x) end.
  destruct (loadSettings_fields s1) as (Hl & Hc & Hs & Hm & _).
  rewrite Hl, Hc, Hs, Hm; subst s1.
  cbn [currentSetting with_currentSetting initial_state eeprom].
  set (c := EEPROM.get_int e currentSettingAddress).
  destruct (Z.ltb_spec c 0); destruct (Z.geb_spec c 5);
    cbn [orb settings currentSetting currentScreen menuItem with_currentSetting
         with_eeprom initial_state];
    repeat split; try lia; try discriminate.
Qed.

Lemma inv_active (s : state) : inv s -> exists p, active s = Ok p.
Proof.
  intros (Hl & Hc & _); apply array_get_in_range; lia.
Qed.

Lemma inv_adjustSetting (increase : bool) (sonar : spec_float) (s : state) :
  inv s ->
  exists s',
    adjustSetting increase sonar s = Ok s' /\ inv s'
    /\ currentScreen s' = currentScreen s /\ menuItem s' = menuItem s
    /\ currentSetting s' = currentSetting s /\ eeprom s' = eeprom s.
Proof.
  intros Hinv; destruct (inv_active s Hinv) as [p Hp].
  destruct (adjustSetting_active increase sonar s p Hp)
    as (s' & Hs' & _ & Hc & Hscr & Hm & He & Hl).
  exists s'; split; [exact Hs' | split; [ | auto]].
  unfold inv in *; rewrite Hl, Hc, Hscr, Hm; exact Hinv.
Qed.

Lemma inv_adjustCurrentSettingIndex (increase : bool) (s : state) :
  inv s -> menuItem s = 0 ->
  exists s',
    adjustCurrentSettingIndex increase s = Ok s' /\ inv s'
    /\ currentScreen s' = currentScreen s /\ menuItem s' = menuItem s
    /\ settings s' = settings s /\ eeprom s' = eeprom s.
Proof.
  intros Hinv Hm.
  rewrite adjustCurrentSettingIndex_in_range by (trivial; apply Hinv).
  eexists; split; [reflexivity | ].
  unfold inv in *; cbn [settings currentSetting currentScreen menuItem eeprom
                        with_currentSetting].
  destruct Hinv as (Hl & Hc & Hm' & Hv & Hld).
  repeat split; trivial; lia.
Qed.

Lemma inv_saveSettings (s : state) :
  inv s ->
  exists e, saveSettings (currentSetting s) s = Ok (with_eeprom e s).
Proof.
  intros Hinv; destruct (inv_active s Hinv) as [p Hp]; unfold active in Hp.
  destruct Hinv as (_ & Hc & _).
  unfold saveSettings.
  destruct (Z.leb_spec 0 (currentSetting s)); [ | lia].
  destruct (Z.ltb_spec (currentSetting s) 5); [ | lia].
  cbn [andb]; rewrite Hp; cbn [bind]; eexists; reflexivity.
Qed.

Lemma executeMenuAction_fields (s : state) :
  menuItem (executeMenuAction s) = -1
  /\ settings (executeMenuAction s) = settings s
  /\ currentSetting (executeMenuAction s) = currentSetting s
  /\ eeprom (executeMenuAction s) = eeprom s.
Proof.
  unfold executeMenuAction.
  destruct (menuItem s) as [ | [ [ | | ] | [ | | ] | ] | ]; repeat split.
Qed.

Ltac show_inv :=
  unfold inv in *;
  cbn [settings currentSetting currentScreen menuItem eeprom
       with_settings with_currentSetting with_currentScreen with_menuItem with_eeprom] in *;
  repeat split; try lia; try discriminate; try tauto.

(** One cycle of the controller from a state that satisfies the
    invariant: it is defined, it re-establishes the invariant, and if it
    enters the Menu screen then [menuItem] is the sentinel. *)
Lemma handleButtons_step (b : Btn.t) (sonar : spec_float) (s : state) :
  inv s ->
  exists s',
    handleButtons b sonar s = Ok s' /\ inv s'
    /\ (currentScreen s <> MENU_SCREEN -> currentScreen s' = MENU_SCREEN ->
        menuItem s' = -1).
Proof.
  intros Hinv; pose proof Hinv as (Hl & Hc & Hm & Hv & Hld).
  unfold handleButtons; destruct (currentScreen s) eqn:Hscr.
  - (* Main *)
    unfold when; destruct (Btn.select b); eexists; (split; [reflexivity | ]);
      (split; [show_inv | ]).
    + reflexivity.
    + congruence.
  - (* Menu *)
    destruct (when_cycle (Btn.up b) 3 4 s) as (-> & Hr1 & _); try lia.
    cbn [bind].
    set (s1 := with_menuItem _ s) in *.
    destruct (when_cycle (Btn.down b) 1 4 s1) as (-> & Hr2 & _);
      try (subst s1; cbn [menuItem with_menuItem]; lia).
    cbn [bind].
    set (s2 := with_menuItem _ s1) in *.
    unfold when; destruct (Btn.select b); eexists; (split; [reflexivity | ]).
    + destruct (executeMenuAction_fields s2) as (Em & Es & Ec & _).
      split; [ | congruence].
      unfold inv; rewrite Em, Es, Ec; subst s2 s1.
      cbn [settings currentSetting with_menuItem]; repeat split; trivial; lia.
    + split; [ | congruence].
      subst s2 s1; show_inv; congruence.
  - (* View *)
    unfold when; destruct (Btn.select b); eexists; (split; [reflexivity | ]);
      split; try show_inv; cbn [menuItem with_currentScreen]; intros; auto;
      congruence.
  - (* Edit *)
    destruct (when_cycle (Btn.up b) 3 4 s) as (-> & Hr1 & _); try lia.
    cbn [bind].
    set (s1 := with_menuItem _ s) in *.
    destruct (when_cycle (Btn.down b) 1 4 s1) as (-> & Hr2 & _);
      try (subst s1; cbn [menuItem with_menuItem]; lia).
    cbn [bind].
    set (s2 := with_menuItem _ s1) in *.
    assert (Hinv2 : inv s2 /\ currentScreen s2 = SETTINGS_SCREEN).
    { subst s2 s1; cbn [menuItem with_menuItem] in *; show_inv; congruence. }
    destruct Hinv2 as [Hinv2 Hscr2].
    assert (Hadj : forall increase, exists s',
               adjustSetting increase sonar s2 = Ok s' /\ inv s'
               /\ (SETTINGS_SCREEN <> MENU_SCREEN ->
                   currentScreen s' = MENU_SCREEN -> menuItem s' = -1)).
    { intros increase.
      destruct (inv_adjustSetting increase sonar s2 Hinv2) as (s' & E & I & S & _).
      exists s'; split; [exact E | split; [exact I | congruence]]. }
    assert (Hsame : exists s', Ok s2 = Ok s' /\ inv s'
               /\ (SETTINGS_SCREEN <> MENU_SCREEN ->
                   currentScreen s' = MENU_SCREEN -> menuItem s' = -1)).
    { exists s2; split; [reflexivity | split; [exact Hinv2 | congruence]]. }
    destruct (menuItem s2 =? 0).
    { unfold when; destruct (Btn.select b); auto. }
    destruct (menuItem s2 <? 3).
    { unfold when; destruct (Btn.left b); auto; destruct (Btn.right b); auto. }
    unfold when; destruct (Btn.select b); auto.
    destruct (inv_saveSettings s2 Hinv2) as [e ->]; cbn [bind].
    eexists; split; [reflexivity | ].
    split; [ | reflexivity].
    clear Hadj Hsame; show_inv; apply Hinv2.
  - (* Load *)
    specialize (Hld eq_refl).
    destruct (when_cycle (Btn.up b) 1 2 s) as (-> & Hr1 & Hr1'); try lia.
    cbn [bind].
    set (s1 := with_menuItem _ s) in *.
    assert (Hm1 : -1 <= menuItem s1 <= 1).
    { subst s1; cbn [menuItem with_menuItem]; unfold cycled in *.
      destruct (Btn.up b); [specialize (Hr1' eq_refl) | ]; lia. }
    destruct (when_cycle (Btn.down b) 1 2 s1) as (-> & Hr2 & Hr2'); try lia.
    cbn [bind].
    set (s2 := with_menuItem _ s1) in *.
    assert (Hinv2 : inv s2 /\ currentScreen s2 = LOAD_SCREEN).
    { subst s2; unfold cycled in *.
      destruct (Btn.down b); [specialize (Hr2' eq_refl) | ];
        subst s1; cbn [menuItem with_menuItem] in *; show_inv; congruence. }
    destruct Hinv2 as [Hinv2 Hscr2].
    assert (Hsame : exists s', Ok s2 = Ok s' /\ inv s'
               /\ (LOAD_SCREEN <> MENU_SCREEN ->
                   currentScreen s' = MENU_SCREEN -> menuItem s' = -1)).
    { exists s2; split; [reflexivity | split; [exact Hinv2 | congruence]]. }
    destruct (Z.eqb_spec (menuItem s2) 0) as [H0 | H0].
    { assert (Hadj : forall increase, exists s',
                 adjustCurrentSettingIndex increase s2 = Ok s' /\ inv s'
                 /\ (LOAD_SCREEN <> MENU_SCREEN ->
                     currentScreen s' = MENU_SCREEN -> menuItem s' = -1)).
      { intros increase.
        destruct (inv_adjustCurrentSettingIndex increase s2 Hinv2 H0)
          as (s' & E & I & S & _).
        exists s'; split; [exact E | split; [exact I | congruence]]. }
      unfold when; destruct (Btn.left b); auto; destruct (Btn.right b); auto. }
    unfold when; destruct (Btn.select b); auto.
    eexists; split; [reflexivity | ].
    split; [ | reflexivity].
    match goal with |- context [loadSettings ?x] =>
      destruct (loadSettings_fields x) as (Ll & Lc & _) end.
    unfold inv; cbn [settings currentSetting currentScreen menuItem
                     with_currentScreen with_menuItem].
    rewrite Ll, Lc; cbn [settings currentSetting with_eeprom].
    repeat split; try apply Hinv2; try lia; discriminate.
Qed.

(** Every run of the controller from boot is defined and ends in a state
    that satisfies the invariant. *)
Lemma run_inv (inputs : list input) :
  forall s, inv s -> exists s', run s inputs = Ok s' /\ inv s'.
Proof.
  induction inputs as [ | [b sonar] rest IH]; intros s Hs.
  - exists s; split; [reflexivity | exact Hs].
  - destruct (handleButtons_step b sonar s Hs) as (s1 & E & I & _).
    destruct (IH s1 I) as (s' & E' & I').
    exists s'; cbn [run]; rewrite E; cbn [bind]; auto.
Qed.

Lemma reachable_inv (s : state) : reachable s -> inv s.
Proof.
  intros (e & inputs & Hrun).
  destruct (run_inv inputs (setup e) (setup_inv e)) as (s' & E & I).
  congruence.
Qed.

(** The concrete states [at_screen] that satisfy the invariant. *)
Lemma at_screen_inv (scr : screen) (item : Z) :
  -1 <= item <= 3 ->
  (scr = VIEW_SCREEN -> item = -1) ->
  (scr = LOAD_SCREEN -> item <= 1) ->
  inv (at_screen scr item).
Proof. intros H1 H2 H3; unfold inv, at_screen; cbn; repeat split; trivial; lia. Qed.

(** ** The literals *)

(** [PI] is the binary32 value nearest to the literal 3.14159265359: it
    has 24 significant bits and lies within half a unit in the last place
    (2^-23) of the literal. *)
Lemma PI_is_the_literal :
  PI = S754_finite false 13176795 (-22)
  /\ valid_binary F32.prec F32.emax PI = true
  /\ 2 * Z.abs (13176795 * 10 ^ 11 - 314159265359 * 2 ^ 22) < 10 ^ 11.
Proof. repeat split. Qed.

(** The same for [0.034] in [pingSonar]. *)
Lemma lit_0_034_is_the_literal :
  valid_binary F32.prec F32.emax lit_0_034 = true
  /\ 2 * Z.abs (9126806 * 1000 - 34 * 2 ^ 28) < 1000.
Proof. repeat split. Qed.

(** ** Saving and reloading a profile *)

(** Saving the active slot and reloading all profiles gives the saved
    field values back in that slot, every other slot is loaded from what
    the EEPROM held for it before, and the stored index is not touched. *)
Lemma saveSettings_then_loadSettings (s : state) (p : WaterTankSetting) :
  length (settings s) = 5%nat ->
  active s = Ok p ->
  valid_setting p ->
  exists s1,
    saveSettings (currentSetting s) s = Ok s1
    /\ array_get (settings (loadSettings s1)) (currentSetting s) = Ok p
    /\ (forall i, 0 <= i < 5 -> i <> currentSetting s ->
          array_get (settings (loadSettings s1)) i
          = Ok (EEPROM.get_setting (eeprom s) (i * sizeof_WaterTankSetting)))
    /\ EEPROM.get_int (eeprom s1) currentSettingAddress
       = EEPROM.get_int (eeprom s) currentSettingAddress.
Proof.
  intros Hl Hp Hv; pose proof Hp as Hp'; unfold active in Hp'.
  apply array_get_Ok in Hp' as [Hc0 Hlk]; apply lookup_lt_Some in Hlk.
  assert (Hc : 0 <= currentSetting s < 5) by lia.
  unfold saveSettings.
  destruct (Z.leb_spec 0 (currentSetting s)); [ | lia].
  destruct (Z.ltb_spec (currentSetting s) 5); [ | lia].
  cbn [andb]; unfold active in Hp; rewrite Hp; cbn [bind].
  eexists; split; [reflexivity | ].
  split; [ | split].
  - rewrite loadSettings_slots by (trivial; exact Hc).
    cbn [eeprom with_eeprom]; rewrite get_put_setting by exact Hv; reflexivity.
  - intros i Hi Hne; rewrite loadSettings_slots by trivial.
    cbn [eeprom with_eeprom]; unfold sizeof_WaterTankSetting.
    rewrite get_setting_put_setting_other by lia; reflexivity.
  - cbn [eeprom with_eeprom]; unfold EEPROM.get_int, EEPROM.put_setting.
    unfold currentSettingAddress, sizeof_WaterTankSetting.
    rewrite !read_put_float_outside by lia; reflexivity.
Qed.

(** * The properties of the specification *)

(** ** The progress bar with a zero Target Capacity *)

(** With a Target Capacity of 0 the render divides by zero whenever the
    volume is a number: [map(volume, 0, targetCapacity, 0, width)] is
    called as it is, and its divisor [in_max - in_min] is 0.  (For a
    volume too large for a [long], or whose product with the bar width
    overflows, the behaviour is undefined before the division.) *)
Lemma updateMainScreen_zero_capacity (s : state) (p : WaterTankSetting)
    (distance : spec_float) :
  active s = Ok p ->
  targetCapacity p = F32.zero ->
  F32.isnan (volume_of p distance) = false ->
  is_ok (updateMainScreen distance s) = false
  /\ (forall x n,
         F32.to_long (if F32.ltb (volume_of p distance) F32.zero
                      then F32.zero else volume_of p distance) = Ok x ->
         C.long_mul x (Display.width - 4) = Ok n ->
         updateMainScreen distance s = Undefined DivisionByZero).
Proof.
  intros Hp Hc Hnan; unfold updateMainScreen; unfold active in Hp.
  rewrite Hp; cbn [bind]; rewrite Hnan, Hc.
  change (F32.to_long F32.zero) with (@Ok Z 0).
  change (width - 4) with 124.
  assert (Hmap : forall x, is_ok (Arduino.map x 0 0 0 124) = false
                           /\ (forall n, C.long_mul x 124 = Ok n ->
                               Arduino.map x 0 0 0 124 = Undefined DivisionByZero)).
  { intros x; unfold Arduino.map, C.long_sub, C.long_mul.
    rewrite Z.sub_0_r.
    change (C.long_result (124 - 0)) with (@Ok Z 124).
    change (C.long_result (0 - 0)) with (@Ok Z 0).
    destruct (C.in_long x) eqn:Hx.
    - replace (C.long_result x) with (@Ok Z x)
        by (unfold C.long_result; rewrite Hx; reflexivity).
      cbn [bind].
      destruct (C.long_result (x * 124)) as [n | why]; cbn [bind];
        (split; [reflexivity | ]); [reflexivity | discriminate].
    - replace (C.long_result x) with (@Undefined Z SignedOverflow)
        by (unfold C.long_result; rewrite Hx; reflexivity).
      cbn [bind]; split; [reflexivity | ].
      intros n; unfold C.long_result, C.in_long, C.LONG_MIN, C.LONG_MAX in *.
      destruct (Z.leb_spec (-2147483648) (x * 124));
        destruct (Z.leb_spec (x * 124) 2147483647); try discriminate.
      destruct (Z.leb_spec (-2147483648) x);
        destruct (Z.leb_spec x 2147483647); try discriminate; lia. }
  destruct (F32.to_long _) as [x | why]; cbn [bind];
    [ | split; [reflexivity | discriminate]].
  destruct (Hmap x) as [Hu Hd].
  split.
  - destruct (Arduino.map x 0 0 0 124); [discriminate | reflexivity].
  - intros x' n [= <-] Hn; rewrite (Hd n Hn); reflexivity.
Qed.

(** C1.  The claim that a zero Target Capacity is special-cased does not
    hold of the code: with Target Capacity 0 and the volume 1.2566 of the
    example (Min Height 50, Diameter 20, sample 30) [updateMainScreen]
    reaches the integer division by zero inside [map].  The same happens
    with the all-zero profile the declaration of [WaterTankSetting] gives
    a slot, whose volume is 0. *)
Theorem updateMainScreen_zero_capacity_divides_by_zero :
  F32.isnan (volume_of {| minHeight := F32.of_Z 50; diameter := F32.of_Z 20;
                          targetCapacity := F32.zero |} (F32.of_Z 30)) = false
  /\ updateMainScreen (F32.of_Z 30) zero_capacity_state = Undefined DivisionByZero
  /\ updateMainScreen (F32.of_Z 30) (initial_state erased) = Undefined DivisionByZero
  /\ Arduino.map 1 0 0 0 124 = Undefined DivisionByZero.
Proof. repeat split. Qed.

(** ** The label array of the Menu screen *)

(** C2.  The loop of [updateMenuScreen] runs [i] from 0 to 4 and reads
    [menuItems[i]] in every iteration, but the array has the four entries
    0..3: whatever [menuItem] is, the render reads [menuItems[4]], one
    past the end of the array.  The claim that every label index lies in
    [0,4) does not hold of the code. *)
Theorem updateMenuScreen_reads_past_menuItems (s : state) :
  updateMenuScreen s = Undefined (OutOfBounds 4 4)
  /\ length menuItems = 4%nat
  /\ (forall i, 0 <= i < 4 -> is_ok (array_get menuItems i) = true)
  /\ array_get menuItems 4 = Undefined (OutOfBounds 4 4).
Proof.
  repeat split.
  intros i Hi.
  assert (H : i = 0 \/ i = 1 \/ i = 2 \/ i = 3) by lia.
  destruct H as [-> | [-> | [-> | ->]]]; reflexivity.
Qed.

(** ** Entering the Menu screen *)




(** ** Select and the arrows on the Menu screen *)

(** On the Menu screen with row 0 highlighted, Down and Select pressed
    together open the View screen, the destination of row 1; the action
    of row 0, the value before the arrow was applied, would have been the
    Main screen. *)
Lemma menu_down_select_acts_on_next_row :
  handleButtons down_and_select F32.zero (at_screen MENU_SCREEN 0)
  = Ok (at_screen VIEW_SCREEN (-1))
  /\ executeMenuAction (at_screen MENU_SCREEN 0) = at_screen MAIN_SCREEN (-1)
  /\ executeMenuAction (at_screen MENU_SCREEN 1) = at_screen VIEW_SCREEN (-1)
  /\ handleButtons down_and_select F32.zero (at_screen MENU_SCREEN 0)
     <> Ok (executeMenuAction (at_screen MENU_SCREEN 0)).
Proof. repeat split; discriminate. Qed.

(** C4 (amended).  On the Menu screen the arrow conditions are evaluated
    before the Select condition: with Select pressed, the menu action
    executed is the one of the [menuItem] value after this cycle's Up
    (three rows forward, modulo 4) and Down (one row forward, modulo 4)
    have been applied, in that order. *)
Theorem menu_select_acts_after_arrows (s : state) (b : Btn.t) (sonar : spec_float) :
  currentScreen s = MENU_SCREEN ->
  Btn.select b = true ->
  -1 <= menuItem s <= 3 ->
  handleButtons b sonar s
  = Ok (executeMenuAction
          (with_menuItem
             (cycled (Btn.down b) 1 4 (cycled (Btn.up b) 3 4 (menuItem s))) s)).
Proof.
  intros Hscr Hsel Hm; unfold handleButtons; rewrite Hscr.
  destruct (when_cycle (Btn.up b) 3 4 s) as (-> & Hr1 & _); try lia.
  cbn [bind].
  set (m1 := cycled (Btn.up b) 3 4 (menuItem s)) in *.
  destruct (when_cycle (Btn.down b) 1 4 (with_menuItem m1 s)) as (-> & _ & _);
    cbn [menuItem with_menuItem]; try lia.
  cbn [bind]; unfold when; rewrite Hsel.
  destruct s; reflexivity.
Qed.

Lemma menu_select_acts_after_arrows_witness :
  handleButtons down_and_select F32.zero (at_screen MENU_SCREEN 0)
  = Ok (executeMenuAction (with_menuItem 1 (at_screen MENU_SCREEN 0))).
Proof.
  apply (menu_select_acts_after_arrows (at_screen MENU_SCREEN 0) down_and_select F32.zero);
    [reflexivity | reflexivity | cbn; lia].
Defined.

(** ** Select on the Load screen *)

(** On the Load screen with [menuItem] at the sentinel -1 (the value it
    has when the screen is entered from the Menu), Select alone stores the
    active index (3, where the EEPROM held -1), reloads the five profiles
    (all NaN in the erased EEPROM), and returns to the Menu with
    [menuItem = -1]. *)
Lemma load_select_at_sentinel :
  menuItem (at_screen LOAD_SCREEN (-1)) <> 1
  /\ EEPROM.get_int (eeprom (at_screen LOAD_SCREEN (-1))) currentSettingAddress = -1
  /\ settings (at_screen LOAD_SCREEN (-1)) = replicate 5 example_profile
  /\ exists s',
      handleButtons only_select F32.zero (at_screen LOAD_SCREEN (-1)) = Ok s'
      /\ EEPROM.get_int (eeprom s') currentSettingAddress = 3
      /\ settings s' = replicate 5 nan_profile
      /\ currentScreen s' = MENU_SCREEN
      /\ menuItem s' = -1.
Proof.
  split; [discriminate | ].
  split; [reflexivity | ].
  split; [reflexivity | ].
  eexists; split; [reflexivity | ].
  repeat split.
Qed.

(** C5 (amended).  On the Load screen the Select branch is the [else] of
    [if (menuItem == 0)], taken after this cycle's Up and Down have cycled
    [menuItem].  With Select pressed, in every state that satisfies the
    invariant: when the cycled [menuItem] is not 0 (it is then 1 or the
    sentinel -1) the active index is stored in the EEPROM, all five
    profiles are reloaded from it, the screen becomes Menu and [menuItem]
    becomes -1; when the cycled [menuItem] is 0 none of this happens: the
    EEPROM and the profiles are unchanged, the screen stays Load and
    [menuItem] stays 0. *)
Theorem load_select_acts_unless_row_0 (s : state) (b : Btn.t) (sonar : spec_float) :
  inv s ->
  currentScreen s = LOAD_SCREEN ->
  Btn.select b = true ->
  let m := cycled (Btn.down b) 1 2 (cycled (Btn.up b) 1 2 (menuItem s)) in
  exists s',
    handleButtons b sonar s = Ok s'
    /\ (m = -1 \/ m = 0 \/ m = 1)
    /\ (m <> 0 ->
        EEPROM.get_int (eeprom s') currentSettingAddress = currentSetting s
        /\ (forall i, 0 <= i < 5 ->
              array_get (settings s') i
              = Ok (EEPROM.get_setting (eeprom s') (i * sizeof_WaterTankSetting)))
        /\ currentSetting s' = currentSetting s
        /\ currentScreen s' = MENU_SCREEN
        /\ menuItem s' = -1)
    /\ (m = 0 ->
        eeprom s' = eeprom s
        /\ settings s' = settings s
        /\ currentScreen s' = LOAD_SCREEN
        /\ menuItem s' = 0).
Proof.
  intros Hinv Hscr Hsel m; pose proof Hinv as (Hl & Hc & Hm & Hv & Hld).
  specialize (Hld Hscr).
  unfold handleButtons; rewrite Hscr.
  destruct (when_cycle (Btn.up b) 1 2 s) as (-> & Hr1 & Hr1'); try lia.
  cbn [bind].
  set (m1 := cycled (Btn.up b) 1 2 (menuItem s)) in *.
  assert (Hm1 : -1 <= m1 <= 1).
  { subst m1; unfold cycled in *.
    destruct (Btn.up b); [specialize (Hr1' eq_refl) | ]; lia. }
  destruct (when_cycle (Btn.down b) 1 2 (with_menuItem m1 s)) as (-> & Hr2 & Hr2');
    cbn [menuItem with_menuItem] in *; try lia.
  cbn [bind].
  fold m in Hr2, Hr2' |- *.
  assert (Hm2 : -1 <= m <= 1).
  { subst m; unfold cycled in *.
    destruct (Btn.down b); [specialize (Hr2' eq_refl) | ]; lia. }
  set (s2 := with_menuItem m (with_menuItem m1 s)).
  assert (Hinv2 : inv s2).
  { subst s2; unfold inv in *;
      cbn [settings currentSetting currentScreen menuItem with_menuItem].
    rewrite Hscr; repeat split; trivial; try lia; discriminate. }
  change (menuItem s2) with m.
  destruct (Z.eqb_spec m 0) as [H0 | H0].
  - destruct (Btn.left b); [ | unfold when; destruct (Btn.right b)].
    1, 2: match goal with
          | |- context [adjustCurrentSettingIndex ?increase _] =>
              destruct (inv_adjustCurrentSettingIndex increase _ Hinv2 H0)
                as (s' & E & _ & S & M & A & EE)
          end;
          exists s'; (split; [exact E | ]); (split; [lia | ]);
          (split; [intros; contradiction | ]);
          intros _; rewrite EE, A, S, M; subst s2; cbn; auto.
    exists s2; split; [reflexivity | ].
    split; [lia | ].
    split; [intros; contradiction | ].
    intros _; subst s2; cbn; auto.
  - unfold when; rewrite Hsel.
    eexists; split; [reflexivity | ].
    split; [lia | ].
    split; [ | intros; contradiction].
    intros _.
    match goal with |- context [loadSettings ?x] => set (s3 := x) end.
    destruct (loadSettings_fields s3) as (Ll & Lc & _ & _ & Le).
    cbn [settings currentSetting currentScreen menuItem eeprom
         with_currentScreen with_menuItem].
    rewrite Lc, Le.
    split.
    { subst s3 s2; cbn [eeprom currentSetting with_eeprom with_menuItem].
      apply get_put_int; unfold C.INT_MIN, C.INT_MAX; lia. }
    split; [ | auto].
    intros i Hi; apply loadSettings_slots; [ | exact Hi].
    subst s3 s2; exact Hl.
Qed.

Lemma load_select_acts_unless_row_0_witness :
  inv (at_screen LOAD_SCREEN (-1))
  /\ exists s',
      handleButtons only_select F32.zero (at_screen LOAD_SCREEN (-1)) = Ok s'
      /\ (-1 <> 0 -> currentScreen s' = MENU_SCREEN /\ menuItem s' = -1).
Proof.
  assert (H : inv (at_screen LOAD_SCREEN (-1))).
  { apply at_screen_inv; [lia | discriminate | lia]. }
  split; [exact H | ].
  destruct (load_select_acts_unless_row_0 (at_screen LOAD_SCREEN (-1)) only_select
              F32.zero H eq_refl eq_refl) as (s' & E & _ & Hact & _).
  exists s'; split; [exact E | ].
  intros Hne; destruct (Hact Hne) as (_ & _ & _ & Hs & Hm); split; assumption.
Defined.

(** ** Menu-item cycling stays on a row *)






(** ** The active profile index *)

(** What [setup] does with the stored index. *)
Lemma setup_index (e : EEPROM.t) :
  let stored := EEPROM.get_int e currentSettingAddress in
  (stored < 0 \/ 5 <= stored ->
   currentSetting (setup e) = 0
   /\ eeprom (setup e) = EEPROM.put_int e currentSettingAddress 0
   /\ EEPROM.get_int (eeprom (setup e)) currentSettingAddress = 0)
  /\ (0 <= stored < 5 -> currentSetting (setup e) = stored /\ eeprom (setup e) = e).
Proof.
  intros stored; unfold setup; cbv zeta.
  match goal with |- context [loadSettings ?x] => set (s1 := x) end.
  destruct (loadSettings_fields s1) as (_ & -> & _ & _ & ->); subst s1.
  cbn [currentSetting eeprom with_currentSetting initial_state].
  fold stored.
  destruct (Z.ltb_spec stored 0); destruct (Z.geb_spec stored 5);
    cbn [orb currentSetting eeprom with_currentSetting with_eeprom initial_state];
    (split; [intros Hout | intros Hin]); try lia;
    repeat split; try reflexivity;
    apply get_put_int; unfold C.INT_MIN, C.INT_MAX; lia.
Qed.

(** On the Load screen with row 0 highlighted and no arrow pressed, Left
    or Right moves the active index one slot down or up, clamped to
    [0,4]; Left wins when both are pressed. *)
Lemma load_left_right_adjusts (s : state) (b : Btn.t) (sonar : spec_float) :
  inv s ->
  currentScreen s = LOAD_SCREEN ->
  menuItem s = 0 ->
  Btn.up b = false -> Btn.down b = false ->
  Btn.left b || Btn.right b = true ->
  handleButtons b sonar s
  = Ok (with_currentSetting
          (Z.max 0 (Z.min 4 (currentSetting s + (if Btn.left b then -1 else 1)))) s).
Proof.
  intros Hinv Hscr Hm Hup Hdown Hlr.
  unfold handleButtons, when; rewrite Hscr, Hup, Hdown; cbn [bind]; rewrite Hm.
  change (0 =? 0) with true; cbv iota.
  destruct (Btn.left b); [ | destruct (Btn.right b); [ | discriminate]];
    apply adjustCurrentSettingIndex_in_range; trivial; apply Hinv.
Qed.

(** C7.  The active profile index is always in [0,5).  At boot, a stored
    index outside [0,5) is replaced by 0 in memory and 0 is written back
    to the EEPROM at once (reading the index back gives 0), and a stored
    index inside [0,5) is taken as it is.  Every run of the controller
    from boot, whatever the EEPROM held and whatever the inputs, is
    defined and ends with the index in [0,5).  An index adjustment on the
    Load screen that returns at all leaves the index in [0,4], whatever it
    was before; from an index in [0,5) it returns the index plus or minus
    one, clamped to [0,4], and that is what Left and Right do on the Load
    screen in every reachable state. *)
Theorem active_index_always_in_range :
  (forall e : EEPROM.t,
      let stored := EEPROM.get_int e currentSettingAddress in
      0 <= currentSetting (setup e) < 5
      /\ (stored < 0 \/ 5 <= stored ->
          currentSetting (setup e) = 0
          /\ eeprom (setup e) = EEPROM.put_int e currentSettingAddress 0
          /\ EEPROM.get_int (eeprom (setup e)) currentSettingAddress = 0)
      /\ (0 <= stored < 5 ->
          currentSetting (setup e) = stored /\ eeprom (setup e) = e))
  /\ (forall (e : EEPROM.t) (inputs : list input),
         exists s, run (setup e) inputs = Ok s /\ 0 <= currentSetting s < 5)
  /\ (forall (s s' : state) (increase : bool),
         menuItem s = 0 ->
         adjustCurrentSettingIndex increase s = Ok s' ->
         0 <= currentSetting s' <= 4)
  /\ (forall (s : state) (increase : bool),
         0 <= currentSetting s < 5 ->
         menuItem s = 0 ->
         adjustCurrentSettingIndex increase s
         = Ok (with_currentSetting
                 (Z.max 0 (Z.min 4 (currentSetting s + (if increase then 1 else -1)))) s))
  /\ (forall (s : state) (b : Btn.t) (sonar : spec_float),
         reachable s ->
         currentScreen s = LOAD_SCREEN ->
         menuItem s = 0 ->
         Btn.up b = false -> Btn.down b = false ->
         Btn.left b || Btn.right b = true ->
         handleButtons b sonar s
         = Ok (with_currentSetting
                 (Z.max 0 (Z.min 4 (currentSetting s + (if Btn.left b then -1 else 1)))) s)).
Proof.
  split; [ | split; [ | split; [ | split]]].
  - intros e stored; split; [apply (setup_inv e) | apply setup_index].
  - intros e inputs.
    destruct (run_inv inputs (setup e) (setup_inv e)) as (s & E & I).
    exists s; split; [exact E | apply I].
  - intros s s' increase Hm E; eapply adjustCurrentSettingIndex_clamps; eassumption.
  - intros s increase; apply adjustCurrentSettingIndex_in_range.
  - intros s b sonar Hs; apply load_left_right_adjusts, reachable_inv, Hs.
Qed.

Lemma active_index_always_in_range_witness :
  (EEPROM.get_int erased currentSettingAddress < 0
   \/ 5 <= EEPROM.get_int erased currentSettingAddress)
  /\ currentSetting (setup erased) = 0
  /\ EEPROM.get_int (eeprom (setup erased)) currentSettingAddress = 0.
Proof.
  assert (H : EEPROM.get_int erased currentSettingAddress < 0
              \/ 5 <= EEPROM.get_int erased currentSettingAddress)
    by (left; reflexivity).
  split; [exact H | ].
  destruct (proj1 active_index_always_in_range erased) as (_ & Hout & _).
  destruct (Hout H) as (Hc & _ & Hg); split; assumption.
Defined.

(** ** Edits of Diameter and Target Capacity *)





(** ** The volume on the Main screen *)

(** The number the Main screen prints when the volume is not NaN. *)
Lemma updateMainScreen_prints_volume (s : state) (p : WaterTankSetting)
    (distance : spec_float) (calls : list call) :
  active s = Ok p ->
  F32.isnan (volume_of p distance) = false ->
  updateMainScreen distance s = Ok calls ->
  let volume := volume_of p distance in
  let shown := if F32.ltb volume F32.zero then F32.zero else volume in
  calls !! 3%nat = Some (print_float shown 1) /\ calls !! 4%nat = Some (print " L").
Proof.
  intros Hp Hnan; unfold updateMainScreen; unfold active in Hp.
  rewrite Hp; cbn [bind]; rewrite Hnan.
  destruct (F32.to_long _) as [x | ]; [ | discriminate]; cbn [bind].
  destruct (F32.to_long _) as [m | ]; [ | discriminate]; cbn [bind].
  destruct (Arduino.map _ _ _ _ _) as [w | ]; [ | discriminate]; cbn [bind].
  intros [= <-]; split; reflexivity.
Qed.

(** C9.  The Main screen computes [height = minHeight - sample] and
    [volume = (PI * diameter * height) / 1000], the diameter entering as a
    single factor, and a numeric render prints that volume (clamped at 0)
    with one decimal, followed by " L".  In the example (Min Height 50,
    Diameter 20, Target Capacity 10, sample 30) the height is exactly 20,
    the volume is 10541436 * 2^-23, which lies between 1.2566 and 1.2567,
    and rounds to 13 tenths: the display shows 1.3 L. *)
Theorem updateMainScreen_volume :
  (forall (p : WaterTankSetting) (distance : spec_float),
      volume_of p distance
      = F32.div (F32.mul (F32.mul PI (diameter p)) (F32.sub (minHeight p) distance))
                (F32.of_Z 1000))
  /\ (forall (s : state) (p : WaterTankSetting) (distance : spec_float) (calls : list call),
         active s = Ok p ->
         F32.isnan (volume_of p distance) = false ->
         updateMainScreen distance s = Ok calls ->
         calls !! 3%nat
         = Some (print_float (if F32.ltb (volume_of p distance) F32.zero
                              then F32.zero else volume_of p distance) 1)
         /\ calls !! 4%nat = Some (print " L"))
  /\ F32.sub (minHeight example_profile) (F32.of_Z 30) = F32.of_Z 20
  /\ volume_of example_profile (F32.of_Z 30) = example_volume
  /\ 12566 * 2 ^ 23 < 10541436 * 10000 < 12567 * 2 ^ 23
  /\ F32.round_decimals 1 example_volume = Some 13
  /\ updateMainScreen (F32.of_Z 30) example_state
     = Ok [clearDisplay; setTextSize 2; setCursor 40 15;
           print_float example_volume 1; print " L";
           drawRect 2 43 124 8 WHITE; fillRect 2 43 12 8 WHITE; display].
Proof.
  split; [reflexivity | ].
  split; [intros s p distance calls; apply updateMainScreen_prints_volume | ].
  repeat split.
Qed.

(** ** The prompt for a volume that is not a number *)

Lemma volume_of_nan_diameter (p : WaterTankSetting) (distance : spec_float) :
  diameter p = S754_nan -> volume_of p distance = S754_nan.
Proof. unfold volume_of; intros ->; reflexivity. Qed.

Lemma volume_of_nan_sample (p : WaterTankSetting) :
  volume_of p S754_nan = S754_nan.
Proof.
  unfold volume_of.
  assert (H : F32.sub (minHeight p) S754_nan = S754_nan)
    by (destruct (minHeight p) as [ [ | ] | [ | ] | | ]; reflexivity).
  rewrite H.
  assert (H' : F32.mul (F32.mul PI (diameter p)) S754_nan = S754_nan)
    by (destruct (F32.mul PI (diameter p)); reflexivity).
  rewrite H'; reflexivity.
Qed.

(** C10.  Whenever the computed volume is NaN, the Main screen render is
    defined (no undefined behaviour is reached) and consists of the prompt
    alone: the line that asks for the tank to be configured, whose text
    in the source is "please set up tank".  No number is printed.  A NaN
    diameter makes the volume NaN for every sample, and so does a NaN
    sample for every profile. *)
Theorem updateMainScreen_nan_shows_prompt (s : state) (p : WaterTankSetting)
    (distance : spec_float) :
  active s = Ok p ->
  (F32.isnan (volume_of p distance) = true ->
   updateMainScreen distance s = Ok tank_prompt
   /\ existsb is_print_float tank_prompt = false)
  /\ (diameter p = S754_nan -> F32.isnan (volume_of p distance) = true)
  /\ (distance = S754_nan -> F32.isnan (volume_of p distance) = true).
Proof.
  intros Hp; repeat split.
  - unfold updateMainScreen; unfold active in Hp; rewrite Hp; cbn [bind].
    rewrite H; reflexivity.
  - intros Hd; rewrite volume_of_nan_diameter by exact Hd; reflexivity.
  - intros ->; rewrite volume_of_nan_sample; reflexivity.
Qed.

Lemma updateMainScreen_nan_shows_prompt_witness :
  active (setup erased)
  = Ok {| minHeight := S754_nan; diameter := S754_nan; targetCapacity := S754_nan |}
  /\ updateMainScreen (F32.of_Z 30) (setup erased) = Ok tank_prompt.
Proof.
  split; [reflexivity | ].
  apply (updateMainScreen_nan_shows_prompt (setup erased)
           {| minHeight := S754_nan; diameter := S754_nan; targetCapacity := S754_nan |}
           (F32.of_Z 30)); reflexivity.
Defined.

(** * Further properties of the code *)

(** ** Floating point: the integers below 2^24 are exact *)

Lemma digits2_pos_iter_xO (p k : positive) :
  Zpos (digits2_pos (Pos.iter xO p k)) = Zpos (digits2_pos p) + Zpos k.
Proof.
  induction k as [ | k IH] using Pos.peano_ind.
  - cbn [Pos.iter digits2_pos]; lia.
  - rewrite Pos.iter_succ; cbn [digits2_pos]; lia.
Qed.

Lemma Zpos_iter_xO (p k : positive) : Zpos (Pos.iter xO p k) = Zpos p * 2 ^ Zpos k.
Proof.
  induction k as [ | k IH] using Pos.peano_ind.
  - cbn [Pos.iter]; lia.
  - rewrite Pos.iter_succ, Pos2Z.inj_succ, Z.pow_succ_r by lia.
    rewrite Pos2Z.inj_xO, IH; lia.
Qed.

(** A positive [m = c * 2^k] is [c] shifted left [k] times. *)
Lemma shifted_positive (m c : positive) (k : Z) :
  0 <= k -> Zpos m = Zpos c * 2 ^ k ->
  Zpos (digits2_pos m) = Zpos (digits2_pos c) + k.
Proof.
  intros Hk Hm; destruct k as [ | k | k]; [ | | lia].
  - rewrite Z.pow_0_r, Z.mul_1_r in Hm; injection Hm as ->; lia.
  - rewrite <- Zpos_iter_xO in Hm; injection Hm as ->.
    apply digits2_pos_iter_xO.
Qed.

Lemma iter_pos_is_iter {A : Type} (f : A -> A) (n : positive) :
  forall x, SpecFloat.iter_pos f n x = Pos.iter f x n.
Proof.
  induction n as [n IH | n IH | ]; intros x; cbn [SpecFloat.iter_pos Pos.iter].
  - rewrite !IH, <- !Pos.iter_swap; reflexivity.
  - rewrite !IH; reflexivity.
  - reflexivity.
Qed.

Lemma shr_1_double (z : Z) :
  0 < z ->
  shr_1 {| shr_m := 2 * z; shr_r := false; shr_s := false |}
  = {| shr_m := z; shr_r := false; shr_s := false |}.
Proof. destruct z as [ | q | q]; [lia | reflexivity | lia]. Qed.

(** Shifting [c * 2^k] right by [n <= k] positions loses nothing. *)
Lemma shr_exact (n : positive) :
  forall (c : positive) (k : Z),
    Zpos n <= k ->
    SpecFloat.iter_pos shr_1 n
      {| shr_m := Zpos c * 2 ^ k; shr_r := false; shr_s := false |}
    = {| shr_m := Zpos c * 2 ^ (k - Zpos n); shr_r := false; shr_s := false |}.
Proof.
  intros c k; rewrite iter_pos_is_iter; revert c k.
  assert (Hstep : forall (c : positive) (j : Z), 0 <= j ->
            shr_1 {| shr_m := Zpos c * 2 ^ (Z.succ j); shr_r := false; shr_s := false |}
            = {| shr_m := Zpos c * 2 ^ j; shr_r := false; shr_s := false |}).
  { intros c j Hj; rewrite Z.pow_succ_r by exact Hj.
    replace (Zpos c * (2 * 2 ^ j)) with (2 * (Zpos c * 2 ^ j)) by lia.
    apply shr_1_double; pose proof (Z.pow_pos_nonneg 2 j); lia. }
  induction n as [ | n IH] using Pos.peano_ind; intros c k Hk.
  - cbn [Pos.iter].
    replace k with (Z.succ (k - 1)) at 1 by lia.
    apply Hstep; lia.
  - rewrite Pos.iter_succ, IH by lia.
    replace (k - Zpos n) with (Z.succ (k - Zpos (Pos.succ n))) by lia.
    apply Hstep; lia.
Qed.

(** The canonical form of [binary_round] on an integer [c < 2^24] given
    as [m * 2^e] with [e <= 0]: 24 significant bits. *)
Lemma binary_round_normal (s : bool) (m c : positive) (e : Z) :
  Zpos c < 16777216 -> e <= 0 -> Zpos m = Zpos c * 2 ^ (- e) ->
  exists mz,
    binary_round F32.prec F32.emax s m e
    = S754_finite s mz (Zpos (digits2_pos c) - 24)
    /\ Zpos mz = Zpos c * 2 ^ (24 - Zpos (digits2_pos c)).
Proof.
  intros Hc He Hm.
  pose proof (digits2_pos_bounds c) as [Hlo Hhi].
  pose proof (shifted_positive m c (- e) ltac:(lia) Hm) as Hdm.
  set (d := Zpos (digits2_pos c)) in *.
  assert (Hd : 1 <= d <= 24).
  { split; [subst d; lia | ].
    destruct (Z.le_gt_cases d 24) as [H | H]; [exact H | exfalso].
    assert (2 ^ 24 <= 2 ^ (d - 1)) by (apply Z.pow_le_mono_r; lia).
    change (2 ^ 24) with 16777216 in *; lia. }
  unfold binary_round; rewrite Hdm.
  assert (Hfexp : fexp F32.prec F32.emax (d + - e + e) = d - 24).
  { unfold fexp, emin, F32.prec, F32.emax; lia. }
  rewrite Hfexp.
  assert (Hfinal : forall mz : positive,
             Zpos (digits2_pos mz) = 24 ->
             binary_round_aux F32.prec F32.emax s (Zpos mz) (d - 24) loc_Exact
             = S754_finite s mz (d - 24)).
  { intros mz Hdz; unfold binary_round_aux, shr_fexp.
    cbn [Zdigits2 shr_record_of_loc]; rewrite Hdz.
    assert (Hf2 : fexp F32.prec F32.emax (24 + (d - 24)) - (d - 24) = 0).
    { unfold fexp, emin, F32.prec, F32.emax; lia. }
    rewrite Hf2; cbn [shr shr_m loc_of_shr_record round_nearest_even Zdigits2 shr_record_of_loc].
    rewrite Hdz, Hf2; cbn [shr shr_m].
    unfold F32.emax, F32.prec.
    destruct (Z.leb_spec (d - 24) (128 - 24)); [reflexivity | lia]. }
  unfold shl_align.
  destruct (d - 24 - e) as [ | n | n] eqn:Hn.
  - (* already aligned *)
    assert (e = d - 24) as -> by lia.
    exists m; split.
    + apply Hfinal; lia.
    + rewrite Hm; f_equal; f_equal; lia.
  - (* shift right by n <= - e *)
    assert (Hpos : 0 < Zpos c * 2 ^ (24 - d)).
    { pose proof (Z.pow_pos_nonneg 2 (24 - d)); lia. }
    destruct (Zpos c * 2 ^ (24 - d)) as [ | mz | mz] eqn:Hmz; try lia.
    assert (Hdz : Zpos (digits2_pos mz) = 24).
    { rewrite (shifted_positive mz c (24 - d)) by lia; fold d; lia. }
    exists mz; split; [ | reflexivity].
    unfold binary_round_aux, shr_fexp.
    cbn [Zdigits2 shr_record_of_loc]; rewrite Hdm.
    replace (fexp F32.prec F32.emax (d + - e + e) - e) with (Zpos n) by lia.
    cbn [shr]; rewrite Hm, shr_exact by lia.
    replace (- e - Zpos n) with (24 - d) by lia; rewrite Hmz.
    cbn [shr_m loc_of_shr_record round_nearest_even Zdigits2 shr_record_of_loc].
    rewrite Hdz; replace (e + Zpos n) with (d - 24) by lia.
    replace (fexp F32.prec F32.emax (24 + (d - 24)) - (d - 24)) with 0
      by (unfold fexp, emin, F32.prec, F32.emax; lia).
    cbn [shr shr_m]; unfold F32.emax, F32.prec.
    destruct (Z.leb_spec (d - 24) (128 - 24)); [reflexivity | lia].
  - (* shift left by n *)
    exists (Pos.iter xO m n); split.
    + apply Hfinal; rewrite digits2_pos_iter_xO; lia.
    + rewrite Zpos_iter_xO, Hm, <- Z.mul_assoc, <- Z.pow_add_r by lia.
      f_equal; f_equal; lia.
Qed.

(** The canonical form of an integer [c] with [0 < |c| < 2^24]. *)
Lemma of_Z_normal (c : Z) :
  c <> 0 -> -16777216 < c < 16777216 ->
  exists (mz : positive) (ez : Z),
    F32.of_Z c = S754_finite (c <? 0) mz ez
    /\ -23 <= ez <= 0
    /\ Zpos mz = Z.abs c * 2 ^ (- ez).
Proof.
  intros H0 Hc; unfold F32.of_Z, binary_normalize.
  destruct c as [ | p | p]; [congruence | | ].
  - destruct (binary_round_normal false p p 0) as (mz & -> & Hmz); try lia.
    pose proof (digits2_pos_bounds p) as [Hlo Hhi].
    set (d := Zpos (digits2_pos p)) in *.
    assert (Hd : 1 <= d <= 24).
    { split; [subst d; lia | ].
      destruct (Z.le_gt_cases d 24) as [H | H]; [exact H | exfalso].
      assert (2 ^ 24 <= 2 ^ (d - 1)) by (apply Z.pow_le_mono_r; lia).
      change (2 ^ 24) with 16777216 in *; lia. }
    exists mz, (d - 24); split; [reflexivity | split; [lia | ]].
    rewrite Hmz; cbn [Z.abs]; f_equal; f_equal; lia.
  - destruct (binary_round_normal true p p 0) as (mz & -> & Hmz); try lia.
    pose proof (digits2_pos_bounds p) as [Hlo Hhi].
    set (d := Zpos (digits2_pos p)) in *.
    assert (Hd : 1 <= d <= 24).
    { split; [subst d; lia | ].
      destruct (Z.le_gt_cases d 24) as [H | H]; [exact H | exfalso].
      assert (2 ^ 24 <= 2 ^ (d - 1)) by (apply Z.pow_le_mono_r; lia).
      change (2 ^ 24) with 16777216 in *; lia. }
    exists mz, (d - 24); split; [reflexivity | split; [lia | ]].
    rewrite Hmz; cbn [Z.abs]; f_equal; f_equal; lia.
Qed.

(** Any representation [m * 2^e] of such an integer rounds to it. *)
Lemma binary_normalize_exact (m e c : Z) :
  -16777216 < c < 16777216 -> e <= 0 -> m = c * 2 ^ (- e) ->
  binary_normalize F32.prec F32.emax m e false = F32.of_Z c.
Proof.
  intros Hc He Hm.
  pose proof (Z.pow_pos_nonneg 2 (- e) ltac:(lia) ltac:(lia)) as Hpow.
  unfold F32.of_Z, binary_normalize.
  destruct c as [ | p | p].
  - rewrite Z.mul_0_l in Hm; subst m; reflexivity.
  - destruct m as [ | q | q]; try lia.
    destruct (binary_round_normal false q p e) as (mz & -> & Hmz); try lia.
    destruct (binary_round_normal false p p 0) as (mz' & -> & Hmz'); try lia.
    f_equal; lia.
  - destruct m as [ | q | q]; try lia.
    destruct (binary_round_normal true q p e) as (mz & -> & Hmz); try lia.
    destruct (binary_round_normal true p p 0) as (mz' & -> & Hmz'); try lia.
    f_equal; lia.
Qed.

Lemma shl_align_value (m : positive) (e e' : Z) :
  e' <= e ->
  Zpos (fst (shl_align m e e')) = Zpos m * 2 ^ (e - e').
Proof.
  intros He; unfold shl_align.
  destruct (e' - e) as [ | n | n] eqn:Hn; try lia; cbn [fst].
  - replace (e - e') with 0 by lia; lia.
  - rewrite Zpos_iter_xO; f_equal; f_equal; lia.
Qed.

(** Floating-point addition of two integers is the integer sum, as long
    as the operands and the sum are below 2^24 in magnitude. *)
Lemma add_of_Z (a b : Z) :
  -16777216 < a < 16777216 -> -16777216 < b < 16777216 ->
  -16777216 < a + b < 16777216 ->
  F32.add (F32.of_Z a) (F32.of_Z b) = F32.of_Z (a + b).
Proof.
  intros Ha Hb Hab.
  destruct (Z.eq_dec a 0) as [-> | Ha0].
  { destruct (Z.eq_dec b 0) as [-> | Hb0]; [reflexivity | ].
    rewrite Z.add_0_l.
    destruct (of_Z_normal b Hb0 Hb) as (mb & eb & -> & _); reflexivity. }
  destruct (Z.eq_dec b 0) as [-> | Hb0].
  { rewrite Z.add_0_r.
    destruct (of_Z_normal a Ha0 Ha) as (ma & ea & -> & _); reflexivity. }
  destruct (of_Z_normal a Ha0 Ha) as (ma & ea & -> & Hea & Hma).
  destruct (of_Z_normal b Hb0 Hb) as (mb & eb & -> & Heb & Hmb).
  unfold F32.add; cbn [SFadd].
  apply binary_normalize_exact; [exact Hab | lia | ].
  rewrite !shl_align_value by lia.
  rewrite Hma, Hmb, <- !Z.mul_assoc, <- !Z.pow_add_r by lia.
  replace (- ea + (ea - Z.min ea eb)) with (- Z.min ea eb) by lia.
  replace (- eb + (eb - Z.min ea eb)) with (- Z.min ea eb) by lia.
  destruct (Z.ltb_spec a 0), (Z.ltb_spec b 0); cbn [cond_Zopp]; nia.
Qed.

Lemma trunc_of_Z (c : Z) : -16777216 < c < 16777216 -> F32.trunc (F32.of_Z c) = Some c.
Proof.
  intros Hc; destruct (Z.eq_dec c 0) as [-> | H0]; [reflexivity | ].
  destruct (of_Z_normal c H0 Hc) as (mz & ez & -> & Hez & Hmz).
  unfold F32.trunc.
  assert (Hsign : cond_Zopp (c <? 0) (Z.abs c) = c).
  { destruct (Z.ltb_spec c 0); cbn [cond_Zopp]; lia. }
  destruct ez as [ | k | k]; try lia.
  - rewrite Hmz; change (2 ^ (- 0)) with 1; rewrite Z.mul_1_r; f_equal; exact Hsign.
  - rewrite Z.shiftr_div_pow2, Hmz by lia.
    change (- Zneg k) with (Zpos k).
    rewrite Z.div_mul by (apply Z.pow_nonzero; lia); f_equal; exact Hsign.
Qed.

(** An [int] converted to [float] and back is the same [int]. *)
Lemma to_int_of_Z (c : Z) : C.in_int c = true -> F32.to_int (F32.of_Z c) = Ok c.
Proof.
  intros Hc; unfold F32.to_int.
  rewrite trunc_of_Z, Hc; [reflexivity | ].
  unfold C.in_int, C.INT_MIN, C.INT_MAX in Hc; lia.
Qed.

Lemma ltb_of_Z_zero (c : Z) :
  -16777216 < c < 16777216 -> F32.ltb (F32.of_Z c) F32.zero = (c <? 0).
Proof.
  intros Hc; destruct (Z.eq_dec c 0) as [-> | H0]; [reflexivity | ].
  destruct (of_Z_normal c H0 Hc) as (mz & ez & -> & _).
  destruct (c <? 0); reflexivity.
Qed.

(** ** Floating point: signs *)

Section Sign.

Variables prec emax : Z.

Lemma binary_round_aux_nonneg (m e : Z) (l : location) :
  0 <= m -> SFleb (S754_zero false) (binary_round_aux prec emax false m e l) = true.
Proof.
  intros H; unfold binary_round_aux.
  pose proof (shr_fexp_nonneg prec emax m e l H) as H1.
  destruct (shr_fexp prec emax m e l) as [mrs1 e1]; simpl in H1.
  pose proof (shr_fexp_nonneg prec emax _ e1 loc_Exact
                (round_nearest_even_nonneg _ (loc_of_shr_record mrs1) H1)) as H2.
  destruct (shr_fexp prec emax _ e1 loc_Exact) as [mrs2 e2]; simpl in H2.
  destruct (shr_m mrs2) as [ | q | q ]; try lia; try reflexivity.
  destruct (e2 <=? emax - prec); reflexivity.
Qed.

Lemma binary_normalize_nonneg (m e : Z) :
  0 <= m -> SFleb (S754_zero false) (binary_normalize prec emax m e false) = true.
Proof.
  intros H; destruct m as [ | p | p]; [reflexivity | | lia].
  unfold binary_normalize, binary_round.
  destruct (shl_align p e _) as [mz ez].
  apply binary_round_aux_nonneg; lia.
Qed.

Lemma SFmul_nonneg (x : spec_float) (m : positive) (e : Z) :
  SFleb (S754_zero false) x = true ->
  SFleb (S754_zero false) (SFmul prec emax x (S754_finite false m e)) = true.
Proof.
  intros Hx; destruct x as [sx | [ | ] | | [ | ] mx ex]; try discriminate;
    try reflexivity.
  cbn [SFmul xorb]; apply binary_round_aux_nonneg; lia.
Qed.

Lemma SFdiv_nonneg (x : spec_float) (m : positive) (e : Z) :
  SFleb (S754_zero false) x = true ->
  SFleb (S754_zero false) (SFdiv prec emax x (S754_finite false m e)) = true.
Proof.
  intros Hx; destruct x as [sx | [ | ] | | [ | ] mx ex]; try discriminate;
    try reflexivity.
  cbn [SFdiv xorb].
  pose proof (SFdiv_core_binary_nonneg prec emax mx ex m e) as H.
  destruct (SFdiv_core_binary prec emax (Zpos mx) ex (Zpos m) e) as [[mz ez] lz].
  apply binary_round_aux_nonneg; exact H.
Qed.

End Sign.

(** ** The sonar *)

Lemma pingSonar_nonneg (duration : Z) :
  0 <= duration -> nonneg (pingSonar duration).
Proof.
  intros Hd; unfold nonneg, pingSonar, F32.leb, F32.div, F32.mul, F32.zero.
  change (F32.of_Z 2) with (S754_finite false 8388608 (-22)).
  apply SFdiv_nonneg; unfold lit_0_034.
  apply SFmul_nonneg, binary_normalize_nonneg, Hd.
Qed.

(** X1.  [pingSonar] never returns NaN, whatever [pulseIn] measured, and
    for a pulse duration that is not negative the distance it returns is
    [>= 0]. *)
Theorem pingSonar_is_a_distance (duration : Z) :
  F32.isnan (pingSonar duration) = false
  /\ (0 <= duration -> nonneg (pingSonar duration)).
Proof.
  split; [apply pingSonar_not_nan | apply pingSonar_nonneg].
Qed.

Lemma pingSonar_is_a_distance_witness :
  0 <= 5883 /\ nonneg (pingSonar 5883).
Proof.
  split; [lia | apply (pingSonar_is_a_distance 5883); lia].
Defined.

(** ** What one cycle of the controller writes *)

Lemma loadSettings_all (s : state) :
  length (settings s) = 5%nat ->
  settings (loadSettings s) = stored_settings (eeprom s).
Proof.
  intros Hlen; destruct s as [a c scr m e]; cbn [settings eeprom] in *.
  destruct a as [ | p0 [ | p1 [ | p2 [ | p3 [ | p4 [ | p5 a]]]]]]; try discriminate.
  reflexivity.
Qed.

Lemma adjustSetting_settings (increase : bool) (sonar : spec_float) (s : state)
    (p : WaterTankSetting) :
  active s = Ok p ->
  adjustSetting increase sonar s
  = Ok (with_settings
          (<[Z.to_nat (currentSetting s) := adjusted (menuItem s) increase sonar p]>
             (settings s)) s).
Proof.
  intros Hp; unfold active in Hp.
  pose proof Hp as Hp'; apply array_get_Ok in Hp' as [Hi Hlk].
  assert (Hset : forall q,
             array_set (settings s) (currentSetting s) q
             = Ok (<[Z.to_nat (currentSetting s) := q]> (settings s))).
  { intros q; eapply array_set_after_get; exact Hp. }
  assert (Hsame : Ok s = Ok (with_settings
                               (<[Z.to_nat (currentSetting s) := p]> (settings s)) s)).
  { rewrite list_insert_id by exact Hlk; destruct s; reflexivity. }
  unfold adjustSetting, adjusted.
  destruct (menuItem s) as [ | [ [ | | ] | [ | | ] | ] | ] eqn:Hm; try exact Hsame;
    rewrite Hp; cbn [bind];
    match goal with
    | |- context [array_set _ _ ?q] => rewrite (Hset q); reflexivity
    end.
Qed.

Ltac fields :=
  cbn [settings currentSetting currentScreen menuItem eeprom
       with_settings with_currentSetting with_currentScreen with_menuItem with_eeprom].

(** From a state that satisfies the invariant a cycle of [handleButtons]
    is defined and has one of the five effects. *)
Lemma handleButtons_effect (b : Btn.t) (sonar : spec_float) (s : state) :
  inv s ->
  exists s', handleButtons b sonar s = Ok s' /\ effect b sonar s s'.
Proof.
  intros Hinv; pose proof Hinv as (Hl & Hc & Hm & Hv & Hld).
  destruct (inv_active s Hinv) as [p Hp].
  unfold handleButtons; destruct (currentScreen s) eqn:Hscr.
  - (* Main *)
    unfold when; destruct (Btn.select b) eqn:Hsel; eexists;
      (split; [reflexivity | ]);
      apply effect_navigate; fields; trivial; rewrite ?Hscr; try discriminate;
      auto; congruence.
  - (* Menu *)
    destruct (when_cycle (Btn.up b) 3 4 s) as (-> & Hr1 & _); try lia.
    cbn [bind].
    set (s1 := with_menuItem _ s) in *.
    destruct (when_cycle (Btn.down b) 1 4 s1) as (-> & Hr2 & _);
      try (subst s1; cbn [menuItem with_menuItem]; lia).
    cbn [bind].
    set (s2 := with_menuItem _ s1) in *.
    unfold when; destruct (Btn.select b) eqn:Hsel; eexists;
      (split; [reflexivity | ]).
    + destruct (executeMenuAction_fields s2) as (_ & Es & Ec & Ee).
      apply effect_navigate; rewrite ?Es, ?Ec, ?Ee; trivial;
        rewrite ?Hscr; try discriminate; auto.
    + apply effect_navigate; trivial; rewrite ?Hscr; try discriminate.
      subst s2 s1; fields; congruence.
  - (* View *)
    unfold when; destruct (Btn.select b) eqn:Hsel; eexists;
      (split; [reflexivity | ]);
      apply effect_navigate; fields; trivial; rewrite ?Hscr; try discriminate;
      auto; congruence.
  - (* Edit *)
    destruct (when_cycle (Btn.up b) 3 4 s) as (-> & Hr1 & _); try lia.
    cbn [bind].
    set (s1 := with_menuItem _ s) in *.
    destruct (when_cycle (Btn.down b) 1 4 s1) as (-> & Hr2 & _);
      try (subst s1; cbn [menuItem with_menuItem]; lia).
    cbn [bind].
    set (s2 := with_menuItem _ s1) in *.
    assert (Hp2 : active s2 = Ok p) by exact Hp.
    assert (Hsame : exists s', Ok s2 = Ok s' /\ effect b sonar s s').
    { exists s2; split; [reflexivity | ].
      apply effect_navigate; trivial; rewrite ?Hscr; try discriminate.
      subst s2 s1; fields; congruence. }
    assert (Hadj : forall increase,
               Btn.select b || Btn.left b || Btn.right b = true ->
               adjusted (menuItem s2) increase sonar p
               = adjusted (menuItem s2) (negb (Btn.left b)) sonar p ->
               exists s', adjustSetting increase sonar s2 = Ok s'
                          /\ effect b sonar s s').
    { intros increase Hb Hadj.
      rewrite (adjustSetting_settings increase sonar s2 p Hp2).
      eexists; split; [reflexivity | ].
      apply (effect_edit b sonar s _ p); fields; trivial.
      rewrite Hadj; reflexivity. }
    destruct (Z.eqb_spec (menuItem s2) 0) as [H0 | H0].
    { unfold when; destruct (Btn.select b) eqn:Hsel; [ | exact Hsame].
      apply Hadj; [reflexivity | rewrite H0; reflexivity]. }
    destruct (menuItem s2 <? 3).
    { unfold when; destruct (Btn.left b) eqn:Hleft.
      - apply Hadj; [destruct (Btn.select b); reflexivity | reflexivity].
      - destruct (Btn.right b) eqn:Hright; [ | exact Hsame].
        apply Hadj; [destruct (Btn.select b); reflexivity | reflexivity]. }
    unfold when; destruct (Btn.select b) eqn:Hsel; [ | exact Hsame].
    clear Hsame Hadj Hp2; subst s2 s1; unfold saveSettings; fields.
    destruct (Z.leb_spec 0 (currentSetting s)); [ | lia].
    destruct (Z.ltb_spec (currentSetting s) 5); [ | lia].
    cbn [andb]; unfold active in Hp; rewrite Hp; cbn [bind].
    eexists; split; [reflexivity | ].
    apply (effect_save b sonar s _ p); fields; trivial.
  - (* Load *)
    specialize (Hld eq_refl).
    destruct (when_cycle (Btn.up b) 1 2 s) as (-> & Hr1 & Hr1'); try lia.
    cbn [bind].
    set (s1 := with_menuItem _ s) in *.
    assert (Hm1 : -1 <= menuItem s1 <= 1).
    { subst s1; cbn [menuItem with_menuItem]; unfold cycled in *.
      destruct (Btn.up b); [specialize (Hr1' eq_refl) | ]; lia. }
    destruct (when_cycle (Btn.down b) 1 2 s1) as (-> & Hr2 & Hr2'); try lia.
    cbn [bind].
    set (s2 := with_menuItem _ s1) in *.
    assert (Hsame : exists s', Ok s2 = Ok s' /\ effect b sonar s s').
    { exists s2; split; [reflexivity | ].
      apply effect_navigate; trivial; rewrite ?Hscr; try discriminate.
      subst s2 s1; fields; congruence. }
    destruct (Z.eqb_spec (menuItem s2) 0) as [H0 | H0].
    { assert (Hadj : forall increase : bool,
                 Btn.left b || Btn.right b = true ->
                 (if increase then 1 else -1) = (if Btn.left b then -1 else 1) :> Z ->
                 exists s', adjustCurrentSettingIndex increase s2 = Ok s'
                            /\ effect b sonar s s').
      { intros increase Hb Hi.
        rewrite adjustCurrentSettingIndex_in_range by (trivial; exact Hc).
        eexists; split; [reflexivity | ].
        apply effect_index; fields; trivial.
        rewrite Hi; reflexivity. }
      unfold when; destruct (Btn.left b) eqn:Hleft.
      - apply Hadj; reflexivity.
      - destruct (Btn.right b) eqn:Hright; [ | exact Hsame].
        apply Hadj; reflexivity. }
    unfold when; destruct (Btn.select b) eqn:Hsel; [ | exact Hsame].
    eexists; split; [reflexivity | ].
    match goal with |- context [loadSettings ?x] =>
      pose proof (loadSettings_all x Hl) as La;
      destruct (loadSettings_fields x) as (_ & Lc & _ & _ & Le) end.
    apply effect_load; fields; trivial.
Qed.

(** X2.  From a state that satisfies the invariant (every reachable state
    does) a cycle of [handleButtons] is defined, and: it writes the EEPROM
    only when Select is pressed on the Edit or the Load screen, and then
    it goes to the Menu; it changes the profiles in RAM only on the Edit and
    Load screens; it changes the active index only on the Load screen, with
    Left or Right pressed, and stays there. *)
Theorem handleButtons_writes_only_on (b : Btn.t) (sonar : spec_float) (s : state) :
  inv s ->
  exists s',
    handleButtons b sonar s = Ok s'
    /\ (eeprom s' <> eeprom s ->
        Btn.select b = true
        /\ (currentScreen s = SETTINGS_SCREEN \/ currentScreen s = LOAD_SCREEN)
        /\ currentScreen s' = MENU_SCREEN)
    /\ (settings s' <> settings s ->
        currentScreen s = SETTINGS_SCREEN \/ currentScreen s = LOAD_SCREEN)
    /\ (currentSetting s' <> currentSetting s ->
        Btn.left b || Btn.right b = true
        /\ currentScreen s = LOAD_SCREEN /\ currentScreen s' = LOAD_SCREEN).
Proof.
  intros Hinv.
  destruct (handleButtons_effect b sonar s Hinv) as (s' & Hs' & Heff).
  exists s'; split; [exact Hs' | ].
  destruct Heff; (split; [ | split]); intros Hne; try congruence; auto.
Qed.

Lemma handleButtons_writes_only_on_witness :
  inv (at_screen LOAD_SCREEN 0)
  /\ exists s',
       handleButtons only_left F32.zero (at_screen LOAD_SCREEN 0) = Ok s'
       /\ currentSetting s' <> currentSetting (at_screen LOAD_SCREEN 0).
Proof.
  assert (H : inv (at_screen LOAD_SCREEN 0)).
  { apply at_screen_inv; [lia | discriminate | lia]. }
  split; [exact H | ].
  destruct (handleButtons_writes_only_on only_left F32.zero _ H) as (s' & Hs' & _).
  exists s'; split; [exact Hs' | ].
  vm_compute in Hs'; injection Hs' as <-; discriminate.
Defined.

(** ** The stored index and a power cycle *)

Lemma stored_index_put_setting (e : EEPROM.t) (i : Z) (p : WaterTankSetting) :
  0 <= i < 5 ->
  stored_index (EEPROM.put_setting e (i * sizeof_WaterTankSetting) p) = stored_index e.
Proof.
  intros Hi; unfold stored_index, EEPROM.get_int, EEPROM.put_setting.
  unfold currentSettingAddress, sizeof_WaterTankSetting.
  rewrite !read_put_float_outside by lia; reflexivity.
Qed.

Lemma stored_index_put_int (e : EEPROM.t) (c : Z) :
  0 <= c < 5 ->
  stored_index (EEPROM.put_int e currentSettingAddress c) = c.
Proof.
  intros Hc; apply get_put_int; unfold C.INT_MIN, C.INT_MAX; lia.
Qed.

(** What [setup] does with the stored index: a slot is kept and nothing
    is written, anything else is replaced by 0, in RAM and in the EEPROM. *)
Lemma setup_stored (e : EEPROM.t) :
  currentSetting (setup e)
  = (if (stored_index e <? 0) || (stored_index e >=? 5) then 0 else stored_index e)
  /\ eeprom (setup e)
     = (if (stored_index e <? 0) || (stored_index e >=? 5)
        then EEPROM.put_int e currentSettingAddress 0 else e).
Proof.
  unfold setup; cbv zeta.
  match goal with |- context [loadSettings ?x] => set (s1 := x) end.
  destruct (loadSettings_fields s1) as (_ & -> & _ & _ & ->); subst s1.
  cbn [currentSetting eeprom with_currentSetting initial_state].
  fold (stored_index e).
  destruct ((stored_index e <? 0) || (stored_index e >=? 5)); split; reflexivity.
Qed.

Lemma setup_fields (e : EEPROM.t) :
  currentScreen (setup e) = MAIN_SCREEN
  /\ menuItem (setup e) = 0
  /\ settings (setup e) = stored_settings (eeprom (setup e))
  /\ stored_index (eeprom (setup e)) = currentSetting (setup e).
Proof.
  split; [ | split; [ | split]].
  - unfold setup; cbv zeta.
    destruct (_ || _); reflexivity.
  - unfold setup; cbv zeta.
    destruct (_ || _); reflexivity.
  - unfold setup; cbv zeta.
    match goal with |- context [loadSettings ?x] => set (s1 := x) end.
    destruct (loadSettings_fields s1) as (_ & _ & _ & _ & ->).
    apply loadSettings_all; subst s1.
    destruct (_ || _); reflexivity.
  - destruct (setup_stored e) as [-> ->].
    destruct (Z.ltb_spec (stored_index e) 0); destruct (Z.geb_spec (stored_index e) 5);
      cbn [orb]; try reflexivity; apply stored_index_put_int; lia.
Qed.

Lemma state_eq (s t : state) :
  settings s = settings t -> currentSetting s = currentSetting t ->
  currentScreen s = currentScreen t -> menuItem s = menuItem t ->
  eeprom s = eeprom t -> s = t.
Proof. destruct s, t; cbn; intros; subst; reflexivity. Qed.

(** Booting from an EEPROM whose stored index is a slot writes nothing
    and takes the index and the five profiles from it. *)
Lemma setup_from_stored (e : EEPROM.t) :
  0 <= stored_index e < 5 ->
  setup e
  = {| settings := stored_settings e; currentSetting := stored_index e;
       currentScreen := MAIN_SCREEN; menuItem := 0; eeprom := e |}.
Proof.
  intros Hs.
  destruct (setup_stored e) as [Hc He].
  destruct (Z.ltb_spec (stored_index e) 0); [lia | ].
  destruct (Z.geb_spec (stored_index e) 5); [lia | ].
  cbn [orb] in Hc, He.
  destruct (setup_fields e) as (Hscr & Hm & Hset & _).
  apply state_eq; cbn [settings currentSetting currentScreen menuItem eeprom]; trivial.
  rewrite Hset, He; reflexivity.
Qed.

(** The index the EEPROM holds is the active index, except while the
    Load screen is open (where Left and Right move the index in RAM until
    Select stores it). *)
Lemma stored_index_step (b : Btn.t) (sonar : spec_float) (s s' : state) :
  inv s -> effect b sonar s s' ->
  (currentScreen s <> LOAD_SCREEN -> stored_index (eeprom s) = currentSetting s) ->
  currentScreen s' <> LOAD_SCREEN -> stored_index (eeprom s') = currentSetting s'.
Proof.
  intros (_ & Hc & _) Heff IH Hscr'.
  destruct Heff as [Hs Hi He Hedit Hload Hchg | p Hscr Hscr2 Hb Hp Hs Hi He
                    | p Hscr Hscr2 Hb Hp Hs Hi He | Hscr Hscr2 Hb Hs He Hi
                    | Hscr Hscr2 Hb Hi He Hs].
  - rewrite He, Hi; apply IH; intros H; apply Hscr', Hload, H.
  - rewrite He, Hi; apply IH; congruence.
  - rewrite He, Hi, stored_index_put_setting by exact Hc; apply IH; congruence.
  - congruence.
  - rewrite He, Hi; apply stored_index_put_int, Hc.
Qed.

Lemma run_stored_index (inputs : list input) :
  forall s s',
    inv s ->
    (currentScreen s <> LOAD_SCREEN -> stored_index (eeprom s) = currentSetting s) ->
    run s inputs = Ok s' ->
    currentScreen s' <> LOAD_SCREEN -> stored_index (eeprom s') = currentSetting s'.
Proof.
  induction inputs as [ | [b sonar] rest IH]; intros s s' Hinv Hst Hrun.
  - injection Hrun as <-; exact Hst.
  - cbn [run] in Hrun.
    destruct (handleButtons_step b sonar s Hinv) as (s1 & E1 & Hinv1 & _).
    destruct (handleButtons_effect b sonar s Hinv) as (s1' & E1' & Heff).
    assert (s1' = s1) as -> by congruence.
    rewrite E1 in Hrun; cbn [bind] in Hrun.
    apply (IH s1 s' Hinv1); [ | exact Hrun].
    apply (stored_index_step b sonar s s1 Hinv Heff Hst).
Qed.

Lemma reachable_stored_index (s : state) :
  reachable s -> currentScreen s <> LOAD_SCREEN ->
  stored_index (eeprom s) = currentSetting s.
Proof.
  intros (e & inputs & Hrun).
  apply (run_stored_index inputs (setup e) s (setup_inv e)); [ | exact Hrun].
  intros _; apply setup_fields.
Qed.

(** X3.  Booting a second time changes nothing: [setup] run on the EEPROM
    a first boot leaves gives the same state again, and so writes nothing
    more to the EEPROM (a stored index outside 0..4 is repaired once). *)
Theorem setup_idempotent (e : EEPROM.t) :
  setup (eeprom (setup e)) = setup e.
Proof.
  destruct (setup_fields e) as (Hscr & Hm & Hset & Hst).
  pose proof (setup_inv e) as (_ & Hc & _).
  rewrite setup_from_stored by (rewrite Hst; exact Hc).
  symmetry; apply state_eq;
    cbn [settings currentSetting currentScreen menuItem eeprom]; auto.
Qed.

(** X4.  In every state the firmware can reach, away from the Load
    screen, the index stored in the EEPROM is the active index; a power
    cycle there comes back with the same active index and does not write
    the EEPROM. *)
Theorem power_cycle_keeps_index (s : state) :
  reachable s -> currentScreen s <> LOAD_SCREEN ->
  stored_index (eeprom s) = currentSetting s
  /\ currentSetting (setup (eeprom s)) = currentSetting s
  /\ eeprom (setup (eeprom s)) = eeprom s.
Proof.
  intros Hr Hscr.
  pose proof (reachable_stored_index s Hr Hscr) as Hst.
  pose proof (reachable_inv s Hr) as (_ & Hc & _).
  rewrite setup_from_stored by (rewrite Hst; exact Hc).
  cbn [currentSetting eeprom]; auto.
Qed.

Lemma power_cycle_keeps_index_witness :
  reachable (setup erased)
  /\ currentScreen (setup erased) <> LOAD_SCREEN
  /\ currentSetting (setup (eeprom (setup erased))) = currentSetting (setup erased).
Proof.
  assert (Hr : reachable (setup erased)) by (exists erased, []; reflexivity).
  assert (Hscr : currentScreen (setup erased) <> LOAD_SCREEN) by discriminate.
  split; [exact Hr | split; [exact Hscr | ]].
  apply (power_cycle_keeps_index (setup erased) Hr Hscr).
Defined.

Lemma fresh_at_reachable :
  reachable (fresh_at SETTINGS_SCREEN) /\ reachable (fresh_at LOAD_SCREEN).
Proof.
  split.
  - exists erased, open_edit_screen; reflexivity.
  - exists erased, open_load_screen; reflexivity.
Qed.

Lemma array_get_stored_settings (e : EEPROM.t) (i : Z) :
  0 <= i < 5 ->
  array_get (stored_settings e) i
  = Ok (EEPROM.get_setting e (i * sizeof_WaterTankSetting)).
Proof.
  intros Hi; assert (H : i = 0 \/ i = 1 \/ i = 2 \/ i = 3 \/ i = 4) by lia.
  destruct H as [-> | [-> | [-> | [-> | ->]]]]; reflexivity.
Qed.

(** ** Leaving a screen *)

(** X5.  The screen changes only in a cycle with Select pressed, and only
    to or from the Menu.  The Edit screen in particular is left only by
    Save Settings, which writes the active profile to its EEPROM slot
    and leaves the profiles in RAM as they are: there is no way out of the
    Edit screen that discards the edits. *)
Theorem screen_changes_only_on_select (b : Btn.t) (sonar : spec_float) (s : state) :
  inv s ->
  exists s',
    handleButtons b sonar s = Ok s'
    /\ (currentScreen s' <> currentScreen s ->
        Btn.select b = true
        /\ (currentScreen s = MENU_SCREEN \/ currentScreen s' = MENU_SCREEN)
        /\ (currentScreen s = SETTINGS_SCREEN ->
            settings s' = settings s
            /\ exists p,
                 active s = Ok p
                 /\ eeprom s'
                    = EEPROM.put_setting (eeprom s)
                        (currentSetting s * sizeof_WaterTankSetting) p)).
Proof.
  intros Hinv.
  destruct (handleButtons_effect b sonar s Hinv) as (s' & Hs' & Heff).
  exists s'; split; [exact Hs' | intros Hne].
  destruct Heff as [Hs Hi He Hedit Hload Hchg | p Hscr Hscr2 Hb Hp Hs Hi He
                    | p Hscr Hscr2 Hb Hp Hs Hi He | Hscr Hscr2 Hb Hs He Hi
                    | Hscr Hscr2 Hb Hi He Hs]; try congruence.
  - destruct (Hchg Hne) as [Hsel Hmenu].
    split; [exact Hsel | split; [exact Hmenu | ]].
    intros Hscr; specialize (Hedit Hscr); congruence.
  - split; [exact Hb | split; [auto | ]].
    intros _; split; [exact Hs | exists p; auto].
  - split; [exact Hb | split; [auto | congruence]].
Qed.

Lemma screen_changes_only_on_select_witness :
  inv (fresh_at SETTINGS_SCREEN)
  /\ exists s',
       handleButtons up_down_select F32.zero (fresh_at SETTINGS_SCREEN) = Ok s'
       /\ currentScreen s' <> currentScreen (fresh_at SETTINGS_SCREEN).
Proof.
  assert (H : inv (fresh_at SETTINGS_SCREEN)).
  { apply reachable_inv, fresh_at_reachable. }
  split; [exact H | ].
  destruct (screen_changes_only_on_select up_down_select F32.zero _ H)
    as (s' & Hs' & _).
  exists s'; split; [exact Hs' | ].
  vm_compute in Hs'; injection Hs' as <-; discriminate.
Defined.

(** X6.  The Load screen is left only with the active index stored in
    the EEPROM and all five profiles reloaded from it, so a power cycle
    right after comes back with exactly this index, these profiles and
    this EEPROM. *)
Theorem load_then_power_cycle (b : Btn.t) (sonar : spec_float) (s s' : state) :
  inv s ->
  currentScreen s = LOAD_SCREEN ->
  handleButtons b sonar s = Ok s' ->
  currentScreen s' <> LOAD_SCREEN ->
  currentSetting s' = currentSetting s
  /\ stored_index (eeprom s') = currentSetting s
  /\ setup (eeprom s') = with_menuItem 0 (with_currentScreen MAIN_SCREEN s').
Proof.
  intros Hinv Hscr0 Hs' Hne; pose proof Hinv as (_ & Hc & _).
  destruct (handleButtons_effect b sonar s Hinv) as (s1 & Hs1 & Heff).
  assert (s1 = s') as -> by congruence.
  destruct Heff as [Hs Hi He Hedit Hload Hchg | p Hscr Hscr2 Hb Hp Hs Hi He
                    | p Hscr Hscr2 Hb Hp Hs Hi He | Hscr Hscr2 Hb Hs He Hi
                    | Hscr Hscr2 Hb Hi He Hs]; try congruence.
  - specialize (Hload Hscr0); congruence.
  - assert (Hst : stored_index (eeprom s') = currentSetting s).
    { rewrite He; apply stored_index_put_int, Hc. }
    split; [exact Hi | split; [exact Hst | ]].
    rewrite setup_from_stored by (rewrite Hst; exact Hc).
    apply state_eq; fields; congruence.
Qed.

Lemma load_then_power_cycle_witness :
  inv (fresh_at LOAD_SCREEN)
  /\ exists s',
       handleButtons only_select F32.zero (fresh_at LOAD_SCREEN) = Ok s'
       /\ setup (eeprom s') = with_menuItem 0 (with_currentScreen MAIN_SCREEN s').
Proof.
  assert (H : inv (fresh_at LOAD_SCREEN)).
  { apply reachable_inv, fresh_at_reachable. }
  split; [exact H | ].
  eexists; split; [reflexivity | ].
  refine (proj2 (proj2 (load_then_power_cycle only_select F32.zero
                          (fresh_at LOAD_SCREEN) _ H eq_refl eq_refl _))).
  discriminate.
Defined.

(** X7.  Save Settings, then a power cycle: if the fields of the active
    profile are valid binary32 values, the firmware comes back with the
    same active index and the saved values in the active profile; the
    other profiles come back as the EEPROM held them before the save. *)
Theorem save_then_power_cycle (b : Btn.t) (sonar : spec_float) (s s' : state)
    (p : WaterTankSetting) :
  reachable s ->
  currentScreen s = SETTINGS_SCREEN ->
  handleButtons b sonar s = Ok s' ->
  currentScreen s' <> SETTINGS_SCREEN ->
  active s = Ok p ->
  valid_setting p ->
  currentSetting (setup (eeprom s')) = currentSetting s
  /\ active (setup (eeprom s')) = Ok p
  /\ (forall i, 0 <= i < 5 -> i <> currentSetting s ->
        array_get (settings (setup (eeprom s'))) i
        = Ok (EEPROM.get_setting (eeprom s) (i * sizeof_WaterTankSetting))).
Proof.
  intros Hr Hscr0 Hs' Hne Hp0 Hv.
  pose proof (reachable_inv s Hr) as Hinv; pose proof Hinv as (_ & Hc & _).
  pose proof (reachable_stored_index s Hr ltac:(congruence)) as Hst.
  destruct (handleButtons_effect b sonar s Hinv) as (s1 & Hs1 & Heff).
  assert (s1 = s') as -> by congruence.
  destruct Heff as [Hs Hi He Hedit Hload Hchg | q Hscr Hscr2 Hb Hp Hs Hi He
                    | q Hscr Hscr2 Hb Hp Hs Hi He | Hscr Hscr2 Hb Hs He Hi
                    | Hscr Hscr2 Hb Hi He Hs]; try congruence.
  - specialize (Hedit Hscr0); congruence.
  - assert (q = p) as -> by congruence.
    assert (Hst' : stored_index (eeprom s') = currentSetting s).
    { rewrite He, stored_index_put_setting by exact Hc; exact Hst. }
    rewrite setup_from_stored by (rewrite Hst'; exact Hc).
    unfold active; cbn [currentSetting settings]; rewrite Hst'.
    split; [reflexivity | split].
    + rewrite array_get_stored_settings, He by exact Hc.
      rewrite get_put_setting by exact Hv; reflexivity.
    + intros i Hi' Hne'.
      rewrite array_get_stored_settings, He by exact Hi'.
      unfold sizeof_WaterTankSetting.
      rewrite get_setting_put_setting_other by lia; reflexivity.
Qed.

Lemma save_then_power_cycle_witness :
  reachable (fresh_at SETTINGS_SCREEN)
  /\ valid_setting nan_profile
  /\ exists s',
       handleButtons up_down_select F32.zero (fresh_at SETTINGS_SCREEN) = Ok s'
       /\ active (setup (eeprom s')) = Ok nan_profile.
Proof.
  assert (Hr : reachable (fresh_at SETTINGS_SCREEN)) by apply fresh_at_reachable.
  assert (Hv : valid_setting nan_profile) by (repeat split).
  split; [exact Hr | split; [exact Hv | ]].
  eexists; split; [reflexivity | ].
  refine (proj1 (proj2 (save_then_power_cycle up_down_select F32.zero
                          (fresh_at SETTINGS_SCREEN) _ nan_profile Hr
                          eq_refl eq_refl _ eq_refl Hv))).
  discriminate.
Defined.

(** ** The editors *)

Lemma edited_value_of_Z (increase : bool) (a : Z) :
  0 <= a < 16777206 ->
  edited_value increase (F32.of_Z a)
  = F32.of_Z (if increase then a + 10 else Z.max 0 (a - 10)).
Proof.
  intros Ha; unfold edited_value; rewrite of_Z_not_nan.
  destruct increase; rewrite add_of_Z, ltb_of_Z_zero by lia.
  - destruct (Z.ltb_spec (a + 10) 0); [lia | reflexivity].
  - destruct (Z.ltb_spec (a + -10) 0).
    + replace (Z.max 0 (a - 10)) with 0 by lia; reflexivity.
    + f_equal; lia.
Qed.

(** X8.  On the Edit screen, Left and Right on the Diameter and Target
    Capacity rows count in exact tens: a field that holds the integer [a],
    [0 <= a < 16777206] (or NaN, which counts as 0), holds [a + 10] after
    Right and [max 0 (a - 10)] after Left (Left wins when both are
    pressed); the other two fields keep their values.  Below 2^24 the
    floating-point additions are exact. *)
Theorem edit_counts_in_tens (b : Btn.t) (sonar : spec_float) (s : state)
    (p : WaterTankSetting) (a : Z) :
  currentScreen s = SETTINGS_SCREEN ->
  Btn.up b = false -> Btn.down b = false ->
  Btn.left b || Btn.right b = true ->
  active s = Ok p ->
  0 <= a < 16777206 ->
  (menuItem s = 1 ->
   diameter p = F32.of_Z a \/ (diameter p = S754_nan /\ a = 0) ->
   exists s',
     handleButtons b sonar s = Ok s'
     /\ active s'
        = Ok {| minHeight := minHeight p;
                diameter := F32.of_Z (if Btn.left b then Z.max 0 (a - 10) else a + 10);
                targetCapacity := targetCapacity p |})
  /\ (menuItem s = 2 ->
      targetCapacity p = F32.of_Z a \/ (targetCapacity p = S754_nan /\ a = 0) ->
      exists s',
        handleButtons b sonar s = Ok s'
        /\ active s'
           = Ok {| minHeight := minHeight p;
                   diameter := diameter p;
                   targetCapacity
                   := F32.of_Z (if Btn.left b then Z.max 0 (a - 10) else a + 10) |}).
Proof.
  intros Hscr Hup Hdown Hlr Hp Ha.
  assert (Hval : forall x, x = F32.of_Z a \/ (x = S754_nan /\ a = 0) ->
            edited_value (negb (Btn.left b)) x
            = F32.of_Z (if Btn.left b then Z.max 0 (a - 10) else a + 10)).
  { intros x [-> | [-> ->]].
    - rewrite edited_value_of_Z by exact Ha; destruct (Btn.left b); reflexivity.
    - change (edited_value (negb (Btn.left b)) S754_nan)
        with (edited_value (negb (Btn.left b)) (F32.of_Z 0)).
      rewrite edited_value_of_Z by lia; destruct (Btn.left b); reflexivity. }
  assert (E : menuItem s = 1 \/ menuItem s = 2 ->
              handleButtons b sonar s = adjustSetting (negb (Btn.left b)) sonar s).
  { intros Hm; unfold handleButtons, when; rewrite Hscr, Hup, Hdown; cbn [bind].
    destruct Hm as [Hm | Hm]; rewrite Hm;
      cbn [Z.eqb Z.ltb Z.compare Pos.compare Pos.compare_cont]; cbv iota;
      (destruct (Btn.left b); [reflexivity | ]);
      (destruct (Btn.right b); [reflexivity | discriminate]). }
  split; intros Hm Hx;
    rewrite E by auto;
    destruct (adjustSetting_active (negb (Btn.left b)) sonar s p Hp)
      as (s' & Hs' & Hact & _);
    exists s'; (split; [exact Hs' | ]);
    rewrite Hact, Hm; cbn [adjusted]; rewrite (Hval _ Hx); reflexivity.
Qed.

Lemma edit_counts_in_tens_witness :
  exists s',
    handleButtons only_right F32.zero (at_screen SETTINGS_SCREEN 1) = Ok s'
    /\ active s'
       = Ok {| minHeight := F32.of_Z 50; diameter := F32.of_Z 30;
               targetCapacity := F32.of_Z 10 |}.
Proof.
  refine (proj1 (edit_counts_in_tens only_right F32.zero
                   (at_screen SETTINGS_SCREEN 1) example_profile 20
                   eq_refl eq_refl eq_refl eq_refl eq_refl _) eq_refl _).
  - lia.
  - left; reflexivity.
Defined.

(** X9.  On the Edit screen the Min Height row reacts to Select only:
    Select stores the distance the sonar measures in this cycle as the
    Min Height of the active profile, whatever it held before; the stored
    value is never NaN and, for a pulse duration that is not negative, it
    is [>= 0]; Diameter and Target Capacity keep their values.  Without
    Select nothing changes, Left and Right included. *)
Theorem edit_min_height_takes_the_sample (b : Btn.t) (echo : Z) (s : state)
    (p : WaterTankSetting) :
  currentScreen s = SETTINGS_SCREEN ->
  Btn.up b = false -> Btn.down b = false ->
  menuItem s = 0 ->
  active s = Ok p ->
  (Btn.select b = false -> handleButtons b (pingSonar echo) s = Ok s)
  /\ (Btn.select b = true ->
      exists s',
        handleButtons b (pingSonar echo) s = Ok s'
        /\ active s' = Ok {| minHeight := pingSonar echo; diameter := diameter p;
                             targetCapacity := targetCapacity p |}
        /\ F32.isnan (pingSonar echo) = false
        /\ (0 <= echo -> nonneg (pingSonar echo))).
Proof.
  intros Hscr Hup Hdown Hm Hp.
  assert (E : handleButtons b (pingSonar echo) s
              = when (Btn.select b) (adjustSetting true (pingSonar echo)) s).
  { unfold handleButtons; rewrite Hscr, Hup, Hdown; cbn [when bind].
    rewrite Hm; reflexivity. }
  rewrite E; split; intros Hsel; rewrite Hsel; cbn [when]; [reflexivity | ].
  destruct (adjustSetting_active true (pingSonar echo) s p Hp)
    as (s' & Hs' & Hact & _).
  exists s'; split; [exact Hs' | ].
  rewrite Hact, Hm; split; [reflexivity | ].
  split; [apply pingSonar_not_nan | apply pingSonar_nonneg].
Qed.

Lemma edit_min_height_takes_the_sample_witness :
  exists s',
    handleButtons only_select (pingSonar 5883) (at_screen SETTINGS_SCREEN 0) = Ok s'
    /\ active s' = Ok {| minHeight := pingSonar 5883; diameter := F32.of_Z 20;
                         targetCapacity := F32.of_Z 10 |}.
Proof.
  destruct (proj2 (edit_min_height_takes_the_sample only_select 5883
                     (at_screen SETTINGS_SCREEN 0) example_profile
                     eq_refl eq_refl eq_refl eq_refl eq_refl) eq_refl)
    as (s' & Hs' & Hact & _).
  exists s'; split; [exact Hs' | exact Hact].
Defined.

(** ** Moving the highlight *)

(** X10.  On the Menu and Edit screens Up and Down undo each other on the
    four rows, and pressed together they leave the highlight where it is.
    From the sentinel (no row highlighted) Down goes to row 0, Up goes to
    row 2, not to the last row, and both together go to row 3. *)
Theorem up_and_down_cancel (s : state) (x y : spec_float) :
  currentScreen s = MENU_SCREEN \/ currentScreen s = SETTINGS_SCREEN ->
  (0 <= menuItem s <= 3 ->
   run s [(only_up, x); (only_down, y)] = Ok s
   /\ run s [(only_down, x); (only_up, y)] = Ok s
   /\ handleButtons up_and_down x s = Ok s)
  /\ (menuItem s = -1 ->
      handleButtons only_down x s = Ok (with_menuItem 0 s)
      /\ handleButtons only_up x s = Ok (with_menuItem 2 s)
      /\ handleButtons up_and_down x s = Ok (with_menuItem 3 s)).
Proof.
  intros Hscr; destruct s as [a c scr m e]; cbn [currentScreen menuItem] in *.
  split; intros Hm.
  - assert (H : m = 0 \/ m = 1 \/ m = 2 \/ m = 3) by lia.
    destruct Hscr as [-> | ->], H as [-> | [-> | [-> | ->]]];
      repeat split; reflexivity.
  - subst m; destruct Hscr as [-> | ->]; repeat split; reflexivity.
Qed.

Lemma up_and_down_cancel_witness :
  run (at_screen MENU_SCREEN 3) [(only_up, F32.zero); (only_down, F32.zero)]
  = Ok (at_screen MENU_SCREEN 3)
  /\ handleButtons only_up F32.zero (at_screen SETTINGS_SCREEN (-1))
     = Ok (with_menuItem 2 (at_screen SETTINGS_SCREEN (-1))).
Proof.
  split.
  - refine (proj1 (proj1 (up_and_down_cancel (at_screen MENU_SCREEN 3)
                            F32.zero F32.zero (or_introl eq_refl)) _)).
    cbn; lia.
  - exact (proj1 (proj2 (proj2 (up_and_down_cancel (at_screen SETTINGS_SCREEN (-1))
                                  F32.zero F32.zero (or_intror eq_refl))
                           eq_refl))).
Defined.

(** X11.  On the Load screen Up and Down are the same key: either one
    moves the highlight to the other of the two rows, and from the
    sentinel to row 0; the index, the profiles and the EEPROM are not
    touched. *)
Theorem load_up_is_down (s : state) (x : spec_float) :
  currentScreen s = LOAD_SCREEN ->
  -1 <= menuItem s <= 1 ->
  handleButtons only_up x s = handleButtons only_down x s
  /\ handleButtons only_up x s
     = Ok (with_menuItem (if menuItem s =? 0 then 1 else 0) s).
Proof.
  intros Hscr Hm; destruct s as [a c scr m e]; cbn [currentScreen menuItem] in *.
  subst scr; assert (H : m = -1 \/ m = 0 \/ m = 1) by lia.
  destruct H as [-> | [-> | ->]]; split; reflexivity.
Qed.

Lemma load_up_is_down_witness :
  handleButtons only_up F32.zero (at_screen LOAD_SCREEN 0)
  = Ok (at_screen LOAD_SCREEN 1).
Proof.
  refine (proj2 (load_up_is_down (at_screen LOAD_SCREEN 0) F32.zero eq_refl _)).
  cbn; lia.
Defined.

(** X12.  Select is sampled as a level, not as an edge: held down for two
    cycles on the Menu it opens the highlighted screen and acts there
    again.  From "Main Screen", "View Settings" and "Load Settings" the
    second cycle leads straight back to the Menu; only "Edit Settings"
    stays open.  The highlight ends on the sentinel in every case. *)
Theorem held_select_bounces (s : state) (x y : spec_float) :
  currentScreen s = MENU_SCREEN ->
  -1 <= menuItem s <= 3 ->
  exists s',
    run s [(only_select, x); (only_select, y)] = Ok s'
    /\ currentScreen s' = (if menuItem s =? 2 then SETTINGS_SCREEN else MENU_SCREEN)
    /\ menuItem s' = -1.
Proof.
  intros Hscr Hm.
  destruct s as [a c scr m e]; cbn [currentScreen menuItem] in *.
  subst scr.
  assert (H : m = -1 \/ m = 0 \/ m = 1 \/ m = 2 \/ m = 3) by lia.
  destruct H as [-> | [-> | [-> | [-> | ->]]]];
    eexists; (split; [reflexivity | split; reflexivity]).
Qed.

Lemma held_select_bounces_witness :
  exists s',
    run (at_screen MENU_SCREEN 1) [(only_select, F32.zero); (only_select, F32.zero)]
    = Ok s'
    /\ currentScreen s' = MENU_SCREEN.
Proof.
  assert (H : -1 <= menuItem (at_screen MENU_SCREEN 1) <= 3) by (cbn; lia).
  destruct (held_select_bounces (at_screen MENU_SCREEN 1) F32.zero F32.zero eq_refl H)
    as (s' & Hs' & Hscr & _).
  exists s'; split; [exact Hs' | exact Hscr].
Defined.

(** ** The renderers *)

Ltac reduce_reads :=
  repeat match goal with
         | |- context [array_get ?l ?i] =>
             let r := eval cbv [array_get Z.ltb Z.compare Z.to_nat Pos.to_nat
                                Pos.iter_op Init.Nat.add lookup list_lookup] in
                        (array_get l i) in
             change (array_get l i) with r
         end.

(** The calls of [updateLoadSettingsScreen]. *)
Lemma updateLoadSettingsScreen_calls (s : state) :
  C.in_int (currentSetting s) = true ->
  updateLoadSettingsScreen s
  = Ok ([Draw.of_call (setTextSize 1);
         Draw.of_call (setCursor (Z.quot (width - 13 * 6) 2) 0);
         Draw.of_call (println "Load Settings");
         Draw.of_call (drawLine 0 10 width 10 WHITE)]
        ++ (row_prologue 0 s
            ++ [Draw.of_call (print "index: "); Draw.println_int (currentSetting s)])
        ++ (row_prologue 1 s ++ [Draw.of_call (print "Load Settings")])
        ++ [Draw.of_call display]).
Proof.
  intros Hc; pose proof (to_int_of_Z _ Hc) as Hto.
  unfold updateLoadSettingsScreen, draw_loop.
  change (seqZ 0 (2 - 0)) with [0; 1].
  cbn [draw_each]; reduce_reads.
  change (0 <? 1) with true; change (1 <? 1) with false; cbv iota.
  cbn [bind]; rewrite Hto; cbn [bind].
  rewrite !app_nil_r, <- !app_assoc; reflexivity.
Qed.

Lemma printed_ints_app (l1 l2 : list Draw.t) :
  printed_ints (l1 ++ l2) = printed_ints l1 ++ printed_ints l2.
Proof.
  induction l1 as [ | [c | c | n] l1 IH]; cbn [printed_ints app]; rewrite ?IH; reflexivity.
Qed.

Lemma highlights_app (l1 l2 : list Draw.t) :
  highlights (l1 ++ l2) = (highlights l1 + highlights l2)%nat.
Proof. unfold highlights; rewrite List.filter_app, length_app; reflexivity. Qed.

Lemma row_prologue_prints (i : Z) (s : state) :
  printed_ints (row_prologue i s) = []
  /\ highlights (row_prologue i s) = if i =? menuItem s then 1%nat else 0%nat.
Proof. unfold row_prologue; destruct (i =? menuItem s); split; reflexivity. Qed.

(** X13.  The Load screen always renders: every array access of
    [updateLoadSettingsScreen] is in bounds, the index survives its
    conversion to [float] and back, and the one integer printed is the
    active index; one row is highlighted when [menuItem] is 0 or 1 and
    none otherwise. *)
Theorem updateLoadSettingsScreen_shows_index (s : state) :
  C.in_int (currentSetting s) = true ->
  exists calls,
    updateLoadSettingsScreen s = Ok calls
    /\ printed_ints calls = [currentSetting s]
    /\ highlights calls
       = if (0 <=? menuItem s) && (menuItem s <? 2) then 1%nat else 0%nat.
Proof.
  intros Hc; rewrite updateLoadSettingsScreen_calls by exact Hc.
  eexists; split; [reflexivity | ].
  destruct (row_prologue_prints 0 s) as [P0 H0].
  destruct (row_prologue_prints 1 s) as [P1 H1].
  rewrite !printed_ints_app, !highlights_app, P0, P1, H0, H1.
  split; [reflexivity | ].
  destruct (Z.eqb_spec 0 (menuItem s)); destruct (Z.eqb_spec 1 (menuItem s));
    destruct (Z.leb_spec 0 (menuItem s)); destruct (Z.ltb_spec (menuItem s) 2);
    try lia; reflexivity.
Qed.

Lemma updateLoadSettingsScreen_shows_index_witness :
  exists calls,
    updateLoadSettingsScreen (at_screen LOAD_SCREEN 0) = Ok calls
    /\ printed_ints calls = [3]
    /\ highlights calls = 1%nat.
Proof.
  exact (updateLoadSettingsScreen_shows_index (at_screen LOAD_SCREEN 0) eq_refl).
Defined.

Lemma to_int_cases (x : spec_float) :
  (exists n, F32.to_int x = Ok n) \/ F32.to_int x = Undefined FloatToInteger.
Proof.
  unfold F32.to_int; destruct (F32.trunc x) as [z | ]; [ | right; reflexivity].
  destruct (C.in_int z); [left; eexists | right]; reflexivity.
Qed.

(** X14.  [updateEditSettingsScreen] reads its two local arrays inside
    their bounds for every value of [menuItem].  When the three fields of
    the active profile convert to [int], it prints the three integers in
    row order and highlights one row when [menuItem] is 0..3, none
    otherwise.  When a field does not convert (NaN, as in every profile of
    an erased EEPROM, an infinity, or an integer part outside the [int]
    range) the conversion in the render is undefined. *)
Theorem updateEditSettingsScreen_prints_fields (s : state) (p : WaterTankSetting) :
  active s = Ok p ->
  (forall a b c,
      F32.to_int (minHeight p) = Ok a ->
      F32.to_int (diameter p) = Ok b ->
      F32.to_int (targetCapacity p) = Ok c ->
      exists calls,
        updateEditSettingsScreen s = Ok calls
        /\ printed_ints calls = [a; b; c]
        /\ highlights calls
           = if (0 <=? menuItem s) && (menuItem s <? 4) then 1%nat else 0%nat)
  /\ (is_ok (F32.to_int (minHeight p)) && is_ok (F32.to_int (diameter p))
      && is_ok (F32.to_int (targetCapacity p)) = false ->
      updateEditSettingsScreen s = Undefined FloatToInteger).
Proof.
  intros Hp; unfold active in Hp.
  unfold updateEditSettingsScreen, draw_loop, row_prologue.
  rewrite Hp; cbn [bind].
  change (seqZ 0 (4 - 0)) with [0; 1; 2; 3].
  cbn [draw_each]; reduce_reads.
  change (0 <? 3) with true; change (1 <? 3) with true;
    change (2 <? 3) with true; change (3 <? 3) with false; cbv iota.
  cbn [bind].
  split.
  - intros a b c -> -> ->; cbn [bind].
    eexists; split; [reflexivity | ].
    destruct (Z.eqb_spec 0 (menuItem s)); destruct (Z.eqb_spec 1 (menuItem s));
      destruct (Z.eqb_spec 2 (menuItem s)); destruct (Z.eqb_spec 3 (menuItem s));
      try lia; (split; [reflexivity | ]);
      destruct (Z.leb_spec 0 (menuItem s)); destruct (Z.ltb_spec (menuItem s) 4);
      try lia; reflexivity.
  - destruct (to_int_cases (minHeight p)) as [[a ->] | ->]; [ | reflexivity].
    destruct (to_int_cases (diameter p)) as [[b ->] | ->]; [ | reflexivity].
    destruct (to_int_cases (targetCapacity p)) as [[c ->] | ->]; [ | reflexivity].
    discriminate.
Qed.

Lemma updateEditSettingsScreen_prints_fields_witness :
  (exists calls,
      updateEditSettingsScreen (at_screen SETTINGS_SCREEN 2) = Ok calls
      /\ printed_ints calls = [50; 20; 10]
      /\ highlights calls = 1%nat)
  /\ reachable (fresh_at SETTINGS_SCREEN)
  /\ updateEditSettingsScreen (fresh_at SETTINGS_SCREEN) = Undefined FloatToInteger.
Proof.
  split; [ | split].
  - exact (proj1 (updateEditSettingsScreen_prints_fields
                    (at_screen SETTINGS_SCREEN 2) example_profile eq_refl)
             50 20 10 eq_refl eq_refl eq_refl).
  - apply fresh_at_reachable.
  - exact (proj2 (updateEditSettingsScreen_prints_fields
                    (fresh_at SETTINGS_SCREEN) nan_profile eq_refl) eq_refl).
Defined.

(** X15.  [updateViewSettingsScreen] prints the integer parts of the three
    fields of the active profile, in the order Min Height, Diameter,
    Target Capacity, and highlights nothing, when the three fields
    convert to [int]; when one does not (NaN, as in every profile of an
    erased EEPROM, an infinity, or an integer part outside the [int]
    range) the conversion in the render is undefined. *)
Theorem updateViewSettingsScreen_prints_fields (s : state) (p : WaterTankSetting) :
  active s = Ok p ->
  (forall a b c,
      F32.to_int (minHeight p) = Ok a ->
      F32.to_int (diameter p) = Ok b ->
      F32.to_int (targetCapacity p) = Ok c ->
      exists calls,
        updateViewSettingsScreen s = Ok calls
        /\ printed_ints calls = [a; b; c]
        /\ highlights calls = 0%nat)
  /\ (is_ok (F32.to_int (minHeight p)) && is_ok (F32.to_int (diameter p))
      && is_ok (F32.to_int (targetCapacity p)) = false ->
      updateViewSettingsScreen s = Undefined FloatToInteger).
Proof.
  intros Hp; unfold active in Hp.
  unfold updateViewSettingsScreen; rewrite Hp; cbn [bind].
  split.
  - intros a b c -> -> ->; cbn [bind].
    eexists; split; [reflexivity | split; reflexivity].
  - destruct (to_int_cases (minHeight p)) as [[a ->] | ->]; [ | reflexivity].
    destruct (to_int_cases (diameter p)) as [[b ->] | ->]; [ | reflexivity].
    destruct (to_int_cases (targetCapacity p)) as [[c ->] | ->]; [ | reflexivity].
    discriminate.
Qed.

Lemma updateViewSettingsScreen_prints_fields_witness :
  (exists calls,
      updateViewSettingsScreen (at_screen VIEW_SCREEN (-1)) = Ok calls
      /\ printed_ints calls = [50; 20; 10]
      /\ highlights calls = 0%nat)
  /\ updateViewSettingsScreen (fresh_at VIEW_SCREEN) = Undefined FloatToInteger.
Proof.
  split.
  - exact (proj1 (updateViewSettingsScreen_prints_fields
                    (at_screen VIEW_SCREEN (-1)) example_profile eq_refl)
             50 20 10 eq_refl eq_refl eq_refl).
  - exact (proj2 (updateViewSettingsScreen_prints_fields
                    (fresh_at VIEW_SCREEN) nan_profile eq_refl) eq_refl).
Defined.

(** X16.  A cycle of [loop] that starts on the Load screen without Select
    is defined from every state that satisfies the invariant: the
    controller stays on the Load screen, the index in RAM is one of the
    slots 0..4, and the frame drawn prints exactly that index, the one
    the buttons of this same cycle produced. *)
Theorem loop_on_load_screen (b : Btn.t) (echo echo' : Z) (s : state) :
  inv s ->
  currentScreen s = LOAD_SCREEN ->
  Btn.select b = false ->
  exists s' calls,
    loop b echo echo' s = Ok (s', calls)
    /\ currentScreen s' = LOAD_SCREEN
    /\ 0 <= currentSetting s' <= 4
    /\ printed_ints calls = [currentSetting s'].
Proof.
  intros Hinv Hscr Hsel.
  destruct (handleButtons_step b (pingSonar echo) s Hinv) as (s' & Hs' & Hinv' & _).
  destruct (handleButtons_effect b (pingSonar echo) s Hinv) as (s1 & Hs1 & Heff).
  assert (s1 = s') as -> by congruence.
  assert (Hscr' : currentScreen s' = LOAD_SCREEN).
  { destruct Heff; auto; congruence. }
  pose proof Hinv' as (_ & Hc & _).
  assert (Hint : C.in_int (currentSetting s') = true).
  { unfold C.in_int, C.INT_MIN, C.INT_MAX.
    destruct (Z.leb_spec (-32768) (currentSetting s')); [ | lia].
    destruct (Z.leb_spec (currentSetting s') 32767); [reflexivity | lia]. }
  unfold loop; rewrite Hs'; cbn [bind].
  unfold updateDisplay; rewrite Hscr', updateLoadSettingsScreen_calls by exact Hint.
  cbn [bind]; do 2 eexists; split; [reflexivity | ].
  split; [exact Hscr' | split; [lia | ]].
  destruct (row_prologue_prints 0 s') as [P0 _].
  destruct (row_prologue_prints 1 s') as [P1 _].
  rewrite !printed_ints_app, P0, P1; reflexivity.
Qed.

Lemma loop_on_load_screen_witness :
  inv (at_screen LOAD_SCREEN 0)
  /\ exists s' calls,
       loop only_right 5883 5883 (at_screen LOAD_SCREEN 0) = Ok (s', calls)
       /\ currentScreen s' = LOAD_SCREEN
       /\ 0 <= currentSetting s' <= 4
       /\ printed_ints calls = [currentSetting s'].
Proof.
  assert (H : inv (at_screen LOAD_SCREEN 0)).
  { apply at_screen_inv; [lia | discriminate | lia]. }
  split; [exact H | ].
  exact (loop_on_load_screen only_right 5883 5883 (at_screen LOAD_SCREEN 0)
           H eq_refl eq_refl).
Defined.

(** ** The progress bar *)

Lemma to_long_in_long (x : spec_float) (z : Z) :
  F32.to_long x = Ok z -> C.LONG_MIN <= z <= C.LONG_MAX.
Proof.
  unfold F32.to_long; destruct (F32.trunc x) as [t | ]; [ | discriminate].
  unfold C.in_long.
  destruct (Z.leb_spec C.LONG_MIN t); destruct (Z.leb_spec t C.LONG_MAX);
    cbn [andb]; try discriminate.
  intros [= <-]; lia.
Qed.

Lemma long_result_Ok (z : Z) :
  C.LONG_MIN <= z <= C.LONG_MAX -> C.long_result z = Ok z.
Proof.
  intros Hz; unfold C.long_result, C.in_long.
  destruct (Z.leb_spec C.LONG_MIN z); [ | lia].
  destruct (Z.leb_spec z C.LONG_MAX); [reflexivity | lia].
Qed.

(** [map(x, 0, c, 0, out)] scales [x] from [0, c] to [0, out]; it does
    not clamp [x] to [0, c]. *)
Lemma map_value (x c out : Z) :
  0 <= x <= C.LONG_MAX -> 0 < c <= C.LONG_MAX -> 0 <= out <= C.LONG_MAX ->
  x * out <= C.LONG_MAX ->
  Arduino.map x 0 c 0 out = Ok (Z.quot (x * out) c).
Proof.
  intros Hx Hc Hout Hmul.
  assert (Hq : 0 <= Z.quot (x * out) c <= x * out).
  { rewrite Z.quot_div_nonneg by nia.
    split; [apply Z.div_pos; nia | ].
    apply Z.div_le_upper_bound; nia. }
  unfold C.LONG_MAX in *.
  unfold Arduino.map, C.long_sub, C.long_mul, C.long_div, C.long_add.
  rewrite !Z.sub_0_r.
  rewrite (long_result_Ok x) by (unfold C.LONG_MIN, C.LONG_MAX; lia); cbn [bind].
  rewrite (long_result_Ok out) by (unfold C.LONG_MIN, C.LONG_MAX; lia); cbn [bind].
  rewrite (long_result_Ok (x * out)) by (unfold C.LONG_MIN, C.LONG_MAX; nia); cbn [bind].
  rewrite (long_result_Ok c) by (unfold C.LONG_MIN, C.LONG_MAX; lia); cbn [bind].
  destruct (Z.eqb_spec c 0); [lia | ].
  rewrite (long_result_Ok (Z.quot (x * out) c))
    by (unfold C.LONG_MIN, C.LONG_MAX; nia); cbn [bind].
  rewrite Z.add_0_r; apply long_result_Ok; unfold C.LONG_MIN, C.LONG_MAX; nia.
Qed.

Lemma long_to_int_small (w : Z) :
  0 <= w <= C.INT_MAX -> C.long_to_int w = w.
Proof.
  unfold C.INT_MAX, C.long_to_int; intros Hw.
  rewrite Z.mod_small by lia; lia.
Qed.

(** The calls of a numeric render of the Main screen. *)
Lemma updateMainScreen_calls (s : state) (p : WaterTankSetting)
    (distance : spec_float) (x c : Z) :
  active s = Ok p ->
  F32.isnan (volume_of p distance) = false ->
  F32.to_long (if F32.ltb (volume_of p distance) F32.zero
               then F32.zero else volume_of p distance) = Ok x ->
  F32.to_long (targetCapacity p) = Ok c ->
  0 < c -> 0 <= x -> x * 124 <= C.LONG_MAX ->
  updateMainScreen distance s
  = Ok [clearDisplay; setTextSize 2; setCursor 40 15;
        print_float (if F32.ltb (volume_of p distance) F32.zero
                     then F32.zero else volume_of p distance) 1;
        print " L";
        drawRect 2 43 124 8 WHITE;
        fillRect 2 43 (C.long_to_int (Z.quot (x * 124) c)) 8 WHITE;
        display].
Proof.
  intros Hp Hnan Hx Hcap Hc Hx0 Hmul; unfold active in Hp.
  pose proof (to_long_in_long _ _ Hcap) as Hcl.
  pose proof (to_long_in_long _ _ Hx) as Hxl.
  unfold updateMainScreen; rewrite Hp; cbn [bind]; rewrite Hnan, Hx, Hcap.
  cbn [bind]; change (width - 4) with 124.
  rewrite map_value by (unfold C.LONG_MAX in *; lia).
  reflexivity.
Qed.

(** X17.  The progress bar of the Main screen stays inside its frame as
    long as the volume shown does not exceed the Target Capacity: with
    the integer parts [x] of the volume (clamped at 0) and [c > 0] of the
    Target Capacity, [x <= c] and [x * 124] within the [long] range, the
    bar is drawn at the frame's position with width [x * 124 / c], which
    lies in 0..124.  A negative volume is shown as 0 with an empty bar. *)
Theorem updateMainScreen_bar_in_frame (s : state) (p : WaterTankSetting)
    (distance : spec_float) (x c : Z) :
  active s = Ok p ->
  F32.isnan (volume_of p distance) = false ->
  F32.to_long (if F32.ltb (volume_of p distance) F32.zero
               then F32.zero else volume_of p distance) = Ok x ->
  F32.to_long (targetCapacity p) = Ok c ->
  0 < c -> 0 <= x <= c -> x * 124 <= C.LONG_MAX ->
  updateMainScreen distance s
  = Ok [clearDisplay; setTextSize 2; setCursor 40 15;
        print_float (if F32.ltb (volume_of p distance) F32.zero
                     then F32.zero else volume_of p distance) 1;
        print " L";
        drawRect 2 43 124 8 WHITE;
        fillRect 2 43 (Z.quot (x * 124) c) 8 WHITE;
        display]
  /\ 0 <= Z.quot (x * 124) c <= 124
  /\ (F32.ltb (volume_of p distance) F32.zero = true -> Z.quot (x * 124) c = 0).
Proof.
  intros Hp Hnan Hx Hcap Hc Hxc Hmul.
  assert (Hq : 0 <= Z.quot (x * 124) c <= 124).
  { rewrite Z.quot_div_nonneg by lia.
    split; [apply Z.div_pos; lia | ].
    apply Z.div_le_upper_bound; lia. }
  split; [ | split; [exact Hq | ]].
  - rewrite (updateMainScreen_calls s p distance x c) by (trivial; lia).
    rewrite long_to_int_small by (unfold C.INT_MAX; lia); reflexivity.
  - intros Hneg; rewrite Hneg in Hx; injection Hx as <-; reflexivity.
Qed.

Lemma updateMainScreen_bar_in_frame_witness :
  0 <= Z.quot (1 * 124) 10 <= 124
  /\ exists calls, updateMainScreen (F32.of_Z 30) example_state = Ok calls.
Proof.
  destruct (updateMainScreen_bar_in_frame example_state example_profile
              (F32.of_Z 30) 1 10 eq_refl eq_refl eq_refl eq_refl)
    as (Hcalls & Hq & _); [lia | lia | unfold C.LONG_MAX; lia | ].
  split; [exact Hq | eexists; exact Hcalls].
Defined.

(** X18.  The bar is not clamped to its frame: when the integer part [x]
    of the volume exceeds the integer part [c > 0] of the Target Capacity
    (and [x * 124] is within the [long] range and the width within the
    [int] range), the bar is drawn with width [x * 124 / c], which is at
    least the frame's inner width 124, and more than it once
    [124 * x >= 125 * c]. *)
Theorem updateMainScreen_bar_not_clamped (s : state) (p : WaterTankSetting)
    (distance : spec_float) (x c : Z) :
  active s = Ok p ->
  F32.isnan (volume_of p distance) = false ->
  F32.to_long (if F32.ltb (volume_of p distance) F32.zero
               then F32.zero else volume_of p distance) = Ok x ->
  F32.to_long (targetCapacity p) = Ok c ->
  0 < c -> c < x -> x * 124 <= C.LONG_MAX -> Z.quot (x * 124) c <= C.INT_MAX ->
  updateMainScreen distance s
  = Ok [clearDisplay; setTextSize 2; setCursor 40 15;
        print_float (if F32.ltb (volume_of p distance) F32.zero
                     then F32.zero else volume_of p distance) 1;
        print " L";
        drawRect 2 43 124 8 WHITE;
        fillRect 2 43 (Z.quot (x * 124) c) 8 WHITE;
        display]
  /\ 124 <= Z.quot (x * 124) c
  /\ (125 * c <= 124 * x -> 124 < Z.quot (x * 124) c).
Proof.
  intros Hp Hnan Hx Hcap Hc Hxc Hmul Hint.
  assert (Hq : 124 <= Z.quot (x * 124) c
               /\ (125 * c <= 124 * x -> 124 < Z.quot (x * 124) c)).
  { rewrite Z.quot_div_nonneg by lia; split.
    - apply Z.div_le_lower_bound; lia.
    - intros H; apply Z.lt_le_trans with 125; [lia | ].
      apply Z.div_le_lower_bound; lia. }
  split; [ | exact Hq].
  rewrite (updateMainScreen_calls s p distance x c) by (trivial; lia).
  rewrite long_to_int_small by lia; reflexivity.
Qed.

Lemma updateMainScreen_bar_not_clamped_witness :
  exists calls,
    updateMainScreen (F32.of_Z 30)
      (with_settings
         (replicate 5 {| minHeight := F32.of_Z 50; diameter := F32.of_Z 200;
                         targetCapacity := F32.of_Z 10 |}) example_state)
    = Ok calls
    /\ calls !! 6%nat = Some (fillRect 2 43 148 8 WHITE).
Proof.
  destruct (updateMainScreen_bar_not_clamped
              (with_settings
                 (replicate 5 {| minHeight := F32.of_Z 50; diameter := F32.of_Z 200;
                                 targetCapacity := F32.of_Z 10 |}) example_state)
              {| minHeight := F32.of_Z 50; diameter := F32.of_Z 200;
                 targetCapacity := F32.of_Z 10 |}
              (F32.of_Z 30) 12 10 eq_refl eq_refl eq_refl eq_refl)
    as (Hcalls & _);
    [lia | lia | unfold C.LONG_MAX; lia | vm_compute; discriminate | ].
  eexists; split; [exact Hcalls | reflexivity].
Defined.

(** ** The profile store *)

Lemma read_put_setting_outside (e : EEPROM.t) (a a' : Z) (p : WaterTankSetting) :
  a' < a \/ a + 12 <= a' ->
  EEPROM.read (EEPROM.put_setting e a p) a' = EEPROM.read e a'.
Proof.
  intros H; unfold EEPROM.put_setting.
  rewrite !read_put_float_outside by lia; reflexivity.
Qed.

Lemma stored_settings_put_setting (e : EEPROM.t) (i : Z) (p : WaterTankSetting) :
  0 <= i < 5 -> valid_setting p ->
  stored_settings (EEPROM.put_setting e (i * sizeof_WaterTankSetting) p)
  = <[Z.to_nat i := p]> (stored_settings e).
Proof.
  intros Hi Hv; unfold stored_settings, sizeof_WaterTankSetting.
  assert (H : i = 0 \/ i = 1 \/ i = 2 \/ i = 3 \/ i = 4) by lia.
  destruct H as [-> | [-> | [-> | [-> | ->]]]]; cbn [List.map Z.to_nat Pos.to_nat];
    rewrite ?(get_put_setting _ _ _ Hv);
    rewrite ?get_setting_put_setting_other by lia;
    reflexivity.
Qed.

(** X19.  [saveSettings(index)] does nothing for an index outside 0..4.
    For a slot it writes the twelve EEPROM bytes of that slot and no
    other byte, and changes nothing in RAM; if the fields are valid
    binary32 values, reading the slot back gives the profile saved, and
    [loadSettings] after it gives the five profiles the EEPROM held
    before with this one replaced.  [loadSettings] overwrites all five
    profiles in RAM with what the EEPROM holds, whatever they were. *)
Theorem saveSettings_writes_one_slot (s : state) (index : Z) :
  (index < 0 \/ 5 <= index -> saveSettings index s = Ok s)
  /\ (forall p,
        0 <= index < 5 ->
        array_get (settings s) index = Ok p ->
        exists s1,
          saveSettings index s = Ok s1
          /\ with_eeprom (eeprom s) s1 = s
          /\ (forall a, a < index * 12 \/ index * 12 + 12 <= a ->
                EEPROM.read (eeprom s1) a = EEPROM.read (eeprom s) a)
          /\ (valid_setting p ->
              EEPROM.get_setting (eeprom s1) (index * sizeof_WaterTankSetting) = p
              /\ stored_settings (eeprom s1)
                 = <[Z.to_nat index := p]> (stored_settings (eeprom s))))
  /\ (length (settings s) = 5%nat ->
      settings (loadSettings s) = stored_settings (eeprom s)
      /\ with_settings (settings s) (loadSettings s) = s).
Proof.
  split; [ | split].
  - intros Hout; unfold saveSettings.
    destruct (Z.leb_spec 0 index); destruct (Z.ltb_spec index 5);
      try lia; reflexivity.
  - intros p Hi Hp; unfold saveSettings.
    destruct (Z.leb_spec 0 index); [ | lia].
    destruct (Z.ltb_spec index 5); [ | lia].
    cbn [andb]; rewrite Hp; cbn [bind].
    eexists; split; [reflexivity | ].
    split; [destruct s; reflexivity | ].
    cbn [eeprom with_eeprom]; split.
    + intros a Ha; unfold sizeof_WaterTankSetting.
      apply read_put_setting_outside; lia.
    + intros Hv; split.
      * apply get_put_setting, Hv.
      * apply stored_settings_put_setting; trivial.
  - intros Hl; split; [apply loadSettings_all, Hl | destruct s; reflexivity].
Qed.

Lemma saveSettings_writes_one_slot_witness :
  saveSettings 5 example_state = Ok example_state
  /\ (exists s1,
         saveSettings 3 example_state = Ok s1
         /\ EEPROM.get_setting (eeprom s1) (3 * sizeof_WaterTankSetting)
            = example_profile)
  /\ settings (loadSettings example_state) = stored_settings (eeprom example_state).
Proof.
  pose proof (saveSettings_writes_one_slot example_state 5) as (H5 & _ & _).
  pose proof (saveSettings_writes_one_slot example_state 3) as (_ & H3 & H).
  split; [apply H5; lia | split; [ | apply H; reflexivity]].
  destruct (H3 example_profile) as (s1 & Hs1 & _ & _ & Hv); [lia | reflexivity | ].
  exists s1; split; [exact Hs1 | ].
  apply Hv; repeat split.
Defined.

(** ** Cycles of [loop] *)

(** X20.  Every cycle of [loop] that ends on the Menu screen is undefined:
    [updateDisplay] dispatches to [updateMenuScreen], whose loop reads
    [menuItems[4]] of a four-entry array.  The first Select after boot is
    such a cycle. *)
Theorem loop_on_menu_is_undefined (b : Btn.t) (echo echo' : Z) (s s' : state) :
  handleButtons b (pingSonar echo) s = Ok s' ->
  currentScreen s' = MENU_SCREEN ->
  loop b echo echo' s = Undefined (OutOfBounds 4 4).
Proof.
  intros Hs' Hscr; unfold loop; rewrite Hs'; cbn [bind].
  unfold updateDisplay; rewrite Hscr; reflexivity.
Qed.

Lemma loop_on_menu_is_undefined_witness :
  loop only_select 5883 5883 (setup erased) = Undefined (OutOfBounds 4 4).
Proof.
  refine (loop_on_menu_is_undefined only_select 5883 5883 (setup erased) _ _ _).
  - reflexivity.
  - reflexivity.
Defined.

(** ** The sentinel on the Menu and Edit screens *)

(** X21.  While no row is highlighted ([menuItem] is the sentinel -1, as
    it is on entering the Menu and the Edit screen) and neither Up nor
    Down is pressed, Select, Left and Right have no effect at all on the
    Menu and Edit screens: the state is left as it is. *)
Theorem sentinel_is_inert (b : Btn.t) (sonar : spec_float) (s : state) :
  currentScreen s = MENU_SCREEN \/ currentScreen s = SETTINGS_SCREEN ->
  menuItem s = -1 ->
  Btn.up b = false -> Btn.down b = false ->
  handleButtons b sonar s = Ok s.
Proof.
  intros Hscr Hm Hup Hdown; destruct s as [a c scr m e].
  cbn [currentScreen menuItem] in *; subst m.
  destruct b as [u d l r sel]; cbn [Btn.up Btn.down] in *; subst u d.
  destruct Hscr as [-> | ->]; destruct l, r, sel; reflexivity.
Qed.

Lemma sentinel_is_inert_witness :
  handleButtons only_right F32.zero (fresh_at SETTINGS_SCREEN)
  = Ok (fresh_at SETTINGS_SCREEN).
Proof.
  exact (sentinel_is_inert only_right F32.zero (fresh_at SETTINGS_SCREEN)
           (or_intror eq_refl) eq_refl eq_refl eq_refl).
Defined.
